(** * Bank-sync integration stubs (Tink / TrueLayer): a shallow embedding

  The development follows the JavaScript and TypeScript sources:

  - [Normalizer]: [normalizeTrueLayerTransaction] of the TrueLayer plan
    (section "Normalizer Logic");
  - [SyncServer]: [tink-service.js] ([getTinkClient], [tinkService]) and
    the Express routes of [app-tink.js];
  - [InitModal]: the [onSubmit] routine of [TinkInitialiseModal], and
    [ModalView]: its input handlers and its error banner;
  - [StatusHook]: the effect of [useTrueLayerStatus] of the TrueLayer plan;
  - [NormalizerSource]: the normalizer's body, construct by construct;
  - [FetchCatch]: the [catch] block of the two fetches, and [SubmitAsync]:
    [onSubmit] when a request can be rejected.

  JavaScript strings are [string]s, numbers are binary64 floats,
  [undefined] in an optional position is [None]. *)

From Stdlib Require Import ZArith String Ascii List Bool.
From Stdlib Require Import Floats.PrimFloat.
From Stdlib Require Uint63.
From stdpp Require Import base gmap strings.
Import ListNotations.

Set Warnings "-inexact-float,-register-all".
Local Open Scope string_scope.

(** ** JavaScript vocabulary shared by the three modules *)
Module Js.

(** [!!s] for a string: only the empty string is falsy. *)
Definition truthy_string (s : string) : bool :=
  match s with
  | EmptyString => false
  | String _ _ => true
  end.

(** [!!v] for [v : string | undefined]. *)
Definition truthy_opt (v : option string) : bool :=
  match v with
  | Some s => truthy_string s
  | None => false
  end.

(** [a || b] where [a : string | undefined] and [b : string]: the left
    operand when it is truthy, the right operand otherwise, whatever the
    right operand is. *)
Definition or_else (a : option string) (b : string) : string :=
  match a with
  | Some s => if truthy_string s then s else b
  | None => b
  end.

(** [s.split(sep)] for a one-character ASCII separator. The result always
    has a first element: ["".split('T')] is [[""]]. An ASCII character is
    one unit in UTF-16 and one byte in UTF-8 and is part of no longer
    sequence in either, so the pieces are the same text. *)
Fixpoint split (sep : ascii) (s : string) : list string :=
  match s with
  | EmptyString => [EmptyString]
  | String c rest =>
      if Ascii.eqb c sep then EmptyString :: split sep rest
      else match split sep rest with
           | piece :: pieces => String c piece :: pieces
           | [] => [String c EmptyString]
           end
  end.

(** [arr[0]] on an array of strings; [undefined] when the array is empty. *)
Definition first (arr : list string) : option string := arr !! 0%nat.

(** [x !== y] on strings. *)
Definition strict_ne (x y : string) : bool := negb (String.eqb x y).

(** [a && b] on [string | undefined] operands: the left operand when it is
    falsy, the right operand otherwise. *)
Definition and_also (a b : option string) : option string :=
  if truthy_opt a then b else a.

(** [s.startsWith(p)] and [s.includes(needle)]. *)
Fixpoint starts_with (p s : string) : bool :=
  match p, s with
  | EmptyString, _ => true
  | String a p', String b s' => Ascii.eqb a b && starts_with p' s'
  | String _ _, EmptyString => false
  end.

Fixpoint includes (needle s : string) : bool :=
  starts_with needle s ||
  match s with
  | EmptyString => false
  | String _ s' => includes needle s'
  end.

(** Occurrence of a character in a string. *)
Fixpoint occurs (c : ascii) (s : string) : bool :=
  match s with
  | EmptyString => false
  | String d rest => Ascii.eqb d c || occurs c rest
  end.

End Js.

(** ** The transaction normalizer *)
Module Normalizer.

(** [{ amount: number; currency: string }], used both for
    [running_balance] on the way in and for the two amounts on the way
    out. *)
Record Money := { amount : float; currency : string }.

(** [TrueLayerTransaction] of [types/models/truelayer.ts]. *)
Record TrueLayerTransaction := {
  transaction_id : string;
  timestamp : string;
  description : string;
  tl_amount : float;
  tl_currency : string;
  transaction_type : string;
  transaction_category : string;
  merchant_name : option string;
  running_balance : option Money
}.

(** The [BankSyncTransaction] object the normalizer builds. *)
Record BankSyncTransaction := {
  transactionId : string;
  date : option string;
  payeeName : string;
  notes : string;
  booked : bool;
  transactionAmount : Money;
  balanceAfterTransaction : option Money
}.

(** What a JavaScript function could read from its process without being
    handed it: the local timezone (minutes east of UTC), the clock
    (milliseconds since the epoch) and the state of [Math.random]. *)
Record Ambient := {
  timezoneOffset : Z;
  now : Z;
  randomState : Z
}.

(** [normalizeTrueLayerTransaction(tlTransaction)]. The ambient process
    state is in scope, as it is for every JavaScript function; the body
    never consults it. *)
Definition normalizeTrueLayerTransaction
    (host : Ambient) (tlTransaction : TrueLayerTransaction)
    : BankSyncTransaction :=
  {| transactionId := transaction_id tlTransaction;
     date := Js.first (Js.split "T" (timestamp tlTransaction));
     payeeName :=
       Js.or_else (merchant_name tlTransaction) (description tlTransaction);
     notes := description tlTransaction;
     booked := Js.strict_ne (transaction_type tlTransaction) "PENDING";
     transactionAmount :=
       {| amount := tl_amount tlTransaction;
          currency := tl_currency tlTransaction |};
     balanceAfterTransaction :=
       match running_balance tlTransaction with
       | Some rb => Some {| amount := amount rb; currency := currency rb |}
       | None => None
       end |}.

(** The transaction of the plan's "TrueLayer Transaction Format". *)
Definition acme : TrueLayerTransaction :=
  {| transaction_id := "a6f4e8";
     timestamp := "2024-01-15T10:30:00Z";
     description := "ACME CORP LONDON";
     tl_amount := (-42.50)%float;
     tl_currency := "GBP";
     transaction_type := "DEBIT";
     transaction_category := "PURCHASE";
     merchant_name := Some "ACME Corp";
     running_balance :=
       Some {| amount := 1234.56%float; currency := "GBP" |} |}.

Definition utc : Ambient :=
  {| timezoneOffset := 0; now := 1705314600000; randomState := 0 |}.

(** Auckland in January: thirteen hours ahead of UTC. *)
Definition auckland : Ambient :=
  {| timezoneOffset := 780; now := 1705359600000; randomState := 42 |}.

End Normalizer.

(** ** The sync server: [tink-service.js] and [app-tink.js] *)
Module SyncServer.

(** Values of request and response bodies. An object is the list of its
    fields in the order they were written. *)
Inductive value :=
| Undefined
| Null
| Bool (b : bool)
| Num (n : float)
| Str (s : string)
| Arr (items : list value)
| Obj (fields : list (string * value)).

(** [!!v]. *)
Definition truthy (v : value) : bool :=
  match v with
  | Undefined | Null => false
  | Bool b => b
  | Num n => negb (PrimFloat.eqb n 0 || PrimFloat.is_nan n)
  | Str s => Js.truthy_string s
  | Arr _ | Obj _ => true
  end.

Fixpoint lookup_field (name : string) (fields : list (string * value)) : value :=
  match fields with
  | [] => Undefined
  | (k, v) :: rest => if String.eqb k name then v else lookup_field name rest
  end.

(** [v.name] for a [v] that is neither [undefined] nor [null] and a [name]
    that no prototype defines: the field of an object, [undefined] on
    anything else. *)
Definition prop (v : value) (name : string) : value :=
  match v with
  | Obj fields => lookup_field name fields
  | _ => Undefined
  end.

(** [a || b] on values. *)
Definition or_value (a b : value) : value := if truthy a then a else b.

(** An [Error] object: the message it was built with and the stack the
    engine captured. *)
Record Error := { message : string; stack : string }.

(** The placeholder client object of [getTinkClient]. *)
Record TinkClient := {
  clientId : option string;
  clientSecret : option string
}.

(** The state the server code reads and writes: the credential store, the
    module-level [tinkClient] of [tink-service.js] ([None] is its initial
    [null]), the lines written with [console.error], and the bodies handed
    to [res.send] for the request in flight. *)
Record Process := {
  secrets : gmap string string;
  tinkClient : option TinkClient;
  console : list string;
  sent : list value
}.

(** How a call ends. *)
Inductive outcome (A : Type) :=
| Returned (a : A)
| Thrown (e : Error).
Arguments Returned {A} a.
Arguments Thrown {A} e.

(** Server code: a call runs in a process state and ends by returning or by
    throwing, in a new process state. An [async] function awaited at once is
    run in place: a rejected promise is a throw at the [await]. *)
Definition JS (A : Type) : Type := Process -> outcome A * Process.

Definition ret {A} (a : A) : JS A := fun p => (Returned a, p).

Definition throw {A} (e : Error) : JS A := fun p => (Thrown e, p).

Definition bind {A B} (c : JS A) (k : A -> JS B) : JS B :=
  fun p =>
    match c p with
    | (Returned a, p') => k a p'
    | (Thrown e, p') => (Thrown e, p')
    end.

(** [try { c } catch (error) { handler error }]. *)
Definition try_catch {A} (c : JS A) (handler : Error -> JS A) : JS A :=
  fun p =>
    match c p with
    | (Returned a, p') => (Returned a, p')
    | (Thrown e, p') => handler e p'
    end.

Notation "x <- c ;; k" := (bind c (fun x => k))
  (at level 100, c at next level, right associativity).
Notation "c ;; k" := (bind c (fun _ => k))
  (at level 100, right associativity).

Definition read_tinkClient : JS (option TinkClient) :=
  fun p => (Returned (tinkClient p), p).

Definition write_tinkClient (c : TinkClient) : JS unit :=
  fun p =>
    (Returned tt,
     {| secrets := secrets p; tinkClient := Some c;
        console := console p; sent := sent p |}).

(** [console.error(line)]. *)
Definition console_error (line : string) : JS unit :=
  fun p =>
    (Returned tt,
     {| secrets := secrets p; tinkClient := tinkClient p;
        console := console p ++ [line]; sent := sent p |}).

(** [res.send(body)]. *)
Definition res_send (body : value) : JS unit :=
  fun p =>
    (Returned tt,
     {| secrets := secrets p; tinkClient := tinkClient p;
        console := console p; sent := sent p ++ [body] |}).

(** The [SecretName] entries added for Tink. *)
Module SecretName.
Definition tink_clientId : string := "tink_clientId".
Definition tink_clientSecret : string := "tink_clientSecret".
Definition tink_market : string := "tink_market".
End SecretName.

(** Modelled from the spec: [secretsService] of [services/secrets-service]
    is imported but not among the sources; the credential store exposes
    [get(name) -> string | undefined]. *)
Definition secretsService_get (name : string) : JS (option string) :=
  fun p => (Returned (secrets p !! name), p).

(** The [tinkService] object: three functions. *)
Record TinkService := {
  isConfigured : JS bool;
  getAccounts : JS value;
  getTransactions : value -> value -> JS value
}.

(** An incoming request as a route sees it: [express.json()] has parsed the
    body and [requestLoggerMiddleware] has run; neither answers the
    request. *)
Record Request := { body : value }.

Inductive route := Status | Accounts | Transactions.

Section Server.

(** The text the engine puts in [stack] when [new Error(message)] runs. *)
Variable capture_stack : string -> string.

(** [handleError] is imported from [app-gocardless/util/handle-error], which
    is not among the sources: it wraps a route's function and takes over
    when that function throws. What it does then is left open. *)
Variable on_error : Request -> Error -> JS unit.

Definition new_Error (msg : string) : Error :=
  {| message := msg; stack := capture_stack msg |}.

Definition getTinkClient : JS TinkClient :=
  cached <- read_tinkClient;;
  match cached with
  | Some client => ret client
  | None =>
      clientId <- secretsService_get SecretName.tink_clientId;;
      clientSecret <- secretsService_get SecretName.tink_clientSecret;;
      let client := {| clientId := clientId; clientSecret := clientSecret |} in
      write_tinkClient client;;
      ret client
  end.

Definition tinkService : TinkService :=
  {| isConfigured :=
       clientId <- secretsService_get SecretName.tink_clientId;;
       clientSecret <- secretsService_get SecretName.tink_clientSecret;;
       ret (Js.truthy_opt (Js.and_also clientId clientSecret));
     getAccounts :=
       try_catch
         (client <- getTinkClient;;
          throw (new_Error "Tink account fetching not yet implemented"))
         (fun error =>
            console_error
              ("Error fetching Tink accounts: " ++ message error);;
            throw error);
     getTransactions := fun accountId startDate =>
       try_catch
         (client <- getTinkClient;;
          throw (new_Error "Tink transaction fetching not yet implemented"))
         (fun error =>
            console_error
              ("Error fetching Tink transactions: " ++ message error);;
            throw error) |}.

Definition handleError (func : Request -> JS unit) (req : Request) : JS unit :=
  try_catch (func req) (on_error req).

(** The routes of [app-tink.js], over the service the module imports. *)
Section Routes.

Variable service : TinkService.

Definition post_status : Request -> JS unit :=
  handleError (fun req =>
    configured <- isConfigured service;;
    res_send (Obj [("status", Str "ok");
                   ("data", Obj [("configured", Bool configured)])])).

Definition post_accounts : Request -> JS unit :=
  handleError (fun req =>
    try_catch
      (accounts <- getAccounts service;;
       res_send (Obj [("status", Str "ok");
                      ("data", Obj [("accounts", accounts)])]))
      (fun error =>
         res_send (Obj [("status", Str "ok");
                        ("data", Obj [("error", Str (message error))])]))).

Definition post_transactions : Request -> JS unit :=
  handleError (fun req =>
    let defaulted := or_value (body req) (Obj []) in
    let accountId := prop defaulted "accountId" in
    let startDate := prop defaulted "startDate" in
    try_catch
      (result <- getTransactions service accountId startDate;;
       res_send (Obj [("status", Str "ok"); ("data", result)]))
      (fun error =>
         res_send (Obj [("status", Str "ok");
                        ("data", Obj [("error", Str (message error))])]))).

Definition routes (r : route) : Request -> JS unit :=
  match r with
  | Status => post_status
  | Accounts => post_accounts
  | Transactions => post_transactions
  end.

End Routes.

(** [export { app as handlers }]: the routes over the imported
    [tinkService]. *)
Definition handlers : route -> Request -> JS unit := routes tinkService.

End Server.

(** The same process over another credential store. *)
Definition with_secrets (store : gmap string string) (p : Process) : Process :=
  {| secrets := store; tinkClient := tinkClient p;
     console := console p; sent := sent p |}.

(** An engine that records no stack, and a [handleError] that swallows. *)
Definition no_stack : string -> string := fun _ => "".
Definition swallow : Request -> Error -> JS unit := fun _ _ => ret tt.

(** The two bodies the routes send. *)
Definition configured_body (configured : bool) : value :=
  Obj [("status", Str "ok"); ("data", Obj [("configured", Bool configured)])].

Definition error_body (msg : string) : value :=
  Obj [("status", Str "ok"); ("data", Obj [("error", Str msg)])].

(** The state a fetch leaves behind: the client is cached (built from the
    two secrets if it was not yet), one line is logged, the store and the
    response are untouched. *)
Definition after_fetch (line : string) (p : Process) : Process :=
  {| secrets := secrets p;
     tinkClient :=
       Some match tinkClient p with
            | Some client => client
            | None => {| clientId := secrets p !! SecretName.tink_clientId;
                         clientSecret := secrets p !! SecretName.tink_clientSecret |}
            end;
     console := console p ++ [line];
     sent := sent p |}.

(** A store that holds both credentials and a market. *)
Definition full_store : gmap string string :=
  <["tink_clientId" := "id-123"]>
    (<["tink_clientSecret" := "s3cret"]> (<["tink_market" := "GB"]> ∅)).

(** A process that has just started. *)
Definition boot (store : gmap string string) : Process :=
  {| secrets := store; tinkClient := None; console := []; sent := [] |}.

(** What a route answered: the bodies sent while it ran from [p]. *)
Definition response (handler : JS unit) (p : Process) : list value :=
  sent (snd (handler p)).

End SyncServer.

(** ** The credential-entry modal: [onSubmit] of [TinkInitialiseModal] *)
Module InitModal.

(** What [send('secret-set', ...)] resolves to when it resolves to an
    object: [{ error?, reason? }]. *)
Record SecretSetReply := {
  error : option string;
  reason : option string
}.

(** The component's [useState] cells. *)
Record ModalState := {
  clientId : string;
  clientSecret : string;
  market : string;
  isValid : bool;
  isLoading : bool;
  errorText : string
}.

(** The calls [onSubmit] makes to the outside, in the order it makes them. *)
Inductive call :=
| SecretSet (name value : string)
| OnSuccess
| Close.

Definition setIsValid (v : bool) (s : ModalState) : ModalState :=
  {| clientId := clientId s; clientSecret := clientSecret s;
     market := market s; isValid := v; isLoading := isLoading s;
     errorText := errorText s |}.

Definition setIsLoading (v : bool) (s : ModalState) : ModalState :=
  {| clientId := clientId s; clientSecret := clientSecret s;
     market := market s; isValid := isValid s; isLoading := v;
     errorText := errorText s |}.

Definition setError (v : string) (s : ModalState) : ModalState :=
  {| clientId := clientId s; clientSecret := clientSecret s;
     market := market s; isValid := isValid s; isLoading := isLoading s;
     errorText := v |}.

(** [(await send(...)) || {}]: a missing reply is the empty object, whose
    [error] and [reason] are both [undefined]. *)
Definition or_empty (reply : option SecretSetReply) : SecretSetReply :=
  match reply with
  | Some r => r
  | None => {| error := None; reason := None |}
  end.

(** [if (error)] after the destructuring. *)
Definition reports_error (reply : option SecretSetReply) : bool :=
  Js.truthy_opt (error (or_empty reply)).

(** The end of one run of [onSubmit]. *)
Record Run (B : Type) := {
  state : ModalState;
  backend : B;
  calls : list call
}.
Arguments state {B} _.
Arguments backend {B} _.
Arguments calls {B} _.

Section OnSubmit.

(** The backend behind [send('secret-set', { name, value })]: its state, and
    what a write answers and leaves behind. *)
Variable B : Type.
Variable secret_set : string -> string -> B -> option SecretSetReply * B.

(** [t] of [useTranslation] and [getSecretsError] of [shared/errors]: both
    imported, neither among the sources. *)
Variable t : string -> string.
Variable getSecretsError : option string -> option string -> string.

(** The three statements of every [if (error)] branch. *)
Definition fail (reply : option SecretSetReply) (s : ModalState) : ModalState :=
  setError (getSecretsError (error (or_empty reply)) (reason (or_empty reply)))
    (setIsValid false (setIsLoading false s)).

(** [onSubmit(close)]. The three fields are the ones of the render the
    closure was made in. Every request is answered here; the routine with
    requests that can be rejected is [SubmitAsync.onSubmit], which is this
    one when none is. *)
Definition onSubmit (s : ModalState) (b : B) : Run B :=
  if negb (Js.truthy_string (clientId s))
     || negb (Js.truthy_string (clientSecret s))
     || negb (Js.truthy_string (market s))
  then
    {| state :=
         setError
           (t "It is required to provide the client ID, client secret, and market.")
           (setIsValid false s);
       backend := b;
       calls := [] |}
  else
    let s1 := setIsLoading true s in
    let (reply1, b1) := secret_set "tink_clientId" (clientId s) b in
    if reports_error reply1 then
      {| state := fail reply1 s1;
         backend := b1;
         calls := [SecretSet "tink_clientId" (clientId s)] |}
    else
      let (reply2, b2) := secret_set "tink_clientSecret" (clientSecret s) b1 in
      if reports_error reply2 then
        {| state := fail reply2 s1;
           backend := b2;
           calls := [SecretSet "tink_clientId" (clientId s);
                     SecretSet "tink_clientSecret" (clientSecret s)] |}
      else
        let (reply3, b3) := secret_set "tink_market" (market s) b2 in
        if reports_error reply3 then
          {| state := fail reply3 s1;
             backend := b3;
             calls := [SecretSet "tink_clientId" (clientId s);
                       SecretSet "tink_clientSecret" (clientSecret s);
                       SecretSet "tink_market" (market s)] |}
        else
          {| state := setIsLoading false (setIsValid true s1);
             backend := b3;
             calls := [SecretSet "tink_clientId" (clientId s);
                       SecretSet "tink_clientSecret" (clientSecret s);
                       SecretSet "tink_market" (market s);
                       OnSuccess;
                       Close] |}.

(** The specification's wording, as a definition of its own: write the secrets in
    the order given and stop at the first write that reports an error. *)
Fixpoint write_until_error (todo : list (string * string)) (b : B)
    : list call * B :=
  match todo with
  | [] => ([], b)
  | (name, value) :: rest =>
      let (reply, b') := secret_set name value b in
      if reports_error reply then ([SecretSet name value], b')
      else let (more, b'') := write_until_error rest b' in
           (SecretSet name value :: more, b'')
  end.

Definition three_secrets (s : ModalState) : list (string * string) :=
  [("tink_clientId", clientId s);
   ("tink_clientSecret", clientSecret s);
   ("tink_market", market s)].

End OnSubmit.

Arguments onSubmit {B} secret_set t getSecretsError s b.
Arguments write_until_error {B} secret_set todo b.

(** The [secret-set] calls among the calls made. *)
Definition writes (cs : list call) : list call :=
  List.filter (fun c => match c with SecretSet _ _ => true | _ => false end) cs.

Definition called_onSuccess (cs : list call) : bool :=
  existsb (fun c => match c with OnSuccess => true | _ => false end) cs.

(** Modelled from the spec: the credential store behind [secret-set]
    exposes [set(name, value) -> {error?, reason?}]. This one stores what it
    accepts and answers [unauthorized] to the names in [refused]. *)
Definition store_set (refused : list string) (name value : string)
    (store : gmap string string) : option SecretSetReply * gmap string string :=
  if existsb (String.eqb name) refused
  then (Some {| error := Some "unauthorized"; reason := Some "not-admin" |},
        store)
  else (Some {| error := None; reason := None |}, <[name := value]> store).

(** A translation that leaves every text as it is, and an error text that
    is the error code. *)
Definition untranslated : string -> string := fun text => text.
Definition error_code : option string -> option string -> string :=
  fun error _ => default "" error.

Definition blank : ModalState :=
  {| clientId := ""; clientSecret := ""; market := "";
     isValid := true; isLoading := false;
     errorText := "It is required to provide the client ID, client secret, and market." |}.

Definition filled (id secret mkt : string) : ModalState :=
  {| clientId := id; clientSecret := secret; market := mkt;
     isValid := true; isLoading := false; errorText := errorText blank |}.

End InitModal.

(** ** The modal's fields and what it renders *)
Module ModalView.
Import InitModal.

Definition setClientId (v : string) (s : ModalState) : ModalState :=
  {| clientId := v; clientSecret := clientSecret s;
     market := market s; isValid := isValid s; isLoading := isLoading s;
     errorText := errorText s |}.

Definition setClientSecret (v : string) (s : ModalState) : ModalState :=
  {| clientId := clientId s; clientSecret := v;
     market := market s; isValid := isValid s; isLoading := isLoading s;
     errorText := errorText s |}.

Definition setMarket (v : string) (s : ModalState) : ModalState :=
  {| clientId := clientId s; clientSecret := clientSecret s;
     market := v; isValid := isValid s; isLoading := isLoading s;
     errorText := errorText s |}.

(** The six [useState] initial values of a freshly mounted modal. *)
Definition mount (t : string -> string) : ModalState :=
  {| clientId := ""; clientSecret := ""; market := "";
     isValid := true; isLoading := false;
     errorText :=
       t "It is required to provide the client ID, client secret, and market." |}.

(** The [onChangeValue] handlers of the three inputs. *)
Definition onChangeClientId (value : string) (s : ModalState) : ModalState :=
  setIsValid true (setClientId value s).

Definition onChangeClientSecret (value : string) (s : ModalState) : ModalState :=
  setIsValid true (setClientSecret value s).

Definition onChangeMarket (value : string) (s : ModalState) : ModalState :=
  setIsValid true (setMarket value s).

(** [{!isValid && <Error>{error}</Error>}]: the text of the error banner,
    when there is one. *)
Definition shown_error (s : ModalState) : option string :=
  if negb (isValid s) then Some (errorText s) else None.

End ModalView.

(** ** The [useTrueLayerStatus] hook of the TrueLayer plan *)
Module StatusHook.
Import SyncServer.

(** [configuredTrueLayer] ([boolean | null] by its annotation; what is
    stored is whatever the effect computes) and [isLoading]. *)
Record HookState := {
  configuredTrueLayer : value;
  isLoading : bool
}.

(** [useState<boolean | null>(null)] and [useState(false)]. *)
Definition initial : HookState :=
  {| configuredTrueLayer := Null; isLoading := false |}.

(** [v.name] for any [v]: reading a property of [undefined] or [null]
    throws a [TypeError] ([None]). *)
Definition read_prop (v : value) (name : string) : option value :=
  match v with
  | Undefined | Null => None
  | _ => Some (prop v name)
  end.

(** How one run of the effect ends: the hook's state, the backend, the
    number of [send('truelayer-status')] calls made, and whether the
    [fetch()] promise was rejected. *)
Record EffectRun (B : Type) := {
  hook : HookState;
  backend : B;
  requests : nat;
  rejected : bool
}.
Arguments hook {B} _.
Arguments backend {B} _.
Arguments requests {B} _.
Arguments rejected {B} _.

Section Effect.

Variable B : Type.

(** What [send('truelayer-status')] resolves to ([None] when the promise
    is rejected), and what it leaves. *)
Variable send_status : B -> option value * B.

(** The body of [useEffect], run for a value of [status]. *)
Definition effect (status : string) (h : HookState) (b : B) : EffectRun B :=
  if String.eqb status "online" then
    let h1 := {| configuredTrueLayer := configuredTrueLayer h;
                 isLoading := true |} in
    let (reply, b1) := send_status b in
    match reply ≫= (fun results => read_prop results "configured") with
    | None =>
        {| hook := h1; backend := b1; requests := 1; rejected := true |}
    | Some configured =>
        {| hook := {| configuredTrueLayer := or_value configured (Bool false);
                      isLoading := false |};
           backend := b1; requests := 1; rejected := false |}
    end
  else
    {| hook := h; backend := b; requests := 0; rejected := false |}.

End Effect.

Arguments effect {B} send_status status h b.

(** A backend that answers with the body POST /status would send for a
    server that is, or is not, configured. *)
Definition answers (configured : bool) : unit -> option value * unit :=
  fun _ => (Some (Obj [("configured", Bool configured)]), tt).

(** A backend that answers with an error and no [configured]. *)
Definition refuses : unit -> option value * unit :=
  fun _ => (Some (Obj [("error", Str "unauthorized")]), tt).

(** A backend whose reply is lost. *)
Definition silent : unit -> option value * unit :=
  fun _ => (Some Undefined, tt).

End StatusHook.

(** ** A service that answers, for the routes' other branch *)
Module ServiceDouble.
Import SyncServer.

(** A [tinkService] whose calls return: the accounts it was built with, and
    for transactions the two arguments it was called with. *)
Definition canned (accounts : value) : TinkService :=
  {| isConfigured := ret true;
     getAccounts := ret accounts;
     getTransactions := fun accountId startDate =>
       ret (Obj [("accountId", accountId); ("startDate", startDate)]) |}.

(** A [tinkService] whose three calls throw the same error. *)
Definition broken (e : Error) : TinkService :=
  {| isConfigured := throw e;
     getAccounts := throw e;
     getTransactions := fun _ _ => throw e |}.

(** A [handleError] recovery that reports the message it was given. *)
Definition report : Request -> Error -> JS unit :=
  fun _ e =>
    res_send (Obj [("status", Str "ok");
                   ("data", Obj [("error_code", Str "INTERNAL_ERROR");
                                 ("error_type", Str (message e))])]).

End ServiceDouble.

(** ** The normalizer's body as written

    The text of [normalizeTrueLayerTransaction], construct by construct, in
    a small expression language that also has the constructs a body could
    use to look at its process: the clock, the random generator and the
    local timezone. *)
Module NormalizerSource.
Import SyncServer Normalizer.

(** The expressions: the parameter, literals, [e.name], [e.split(sep)],
    [e[i]], [a || b], [e !== 'literal'], [c ? a : b], object literals, and
    [Date.now()], [Math.random()], [new Date().getTimezoneOffset()]. *)
Inductive expr :=
| Param
| Lit (v : value)
| Member (e : expr) (name : string)
| Split (e : expr) (sep : ascii)
| Index (e : expr) (i : nat)
| Or (a b : expr)
| NotIdenticalTo (e : expr) (literal : string)
| Cond (c a b : expr)
| Object (fields : list (string * expr))
| DateNow
| MathRandom
| TimezoneOffset.

(** The number with an integer value. *)
Definition number_of_Z (z : Z) : float :=
  if (z <? 0)%Z
  then PrimFloat.opp (PrimFloat.of_uint63 (Uint63.of_Z (- z)))
  else PrimFloat.of_uint63 (Uint63.of_Z z).

(** The value of an expression for a parameter, in a process; [None] when
    evaluating it throws a [TypeError] (a property of [undefined] or
    [null], [split] on something that is no string). [getTimezoneOffset]
    counts minutes west of UTC. *)
Fixpoint eval (host : Ambient) (param : value) (e : expr) {struct e}
    : option value :=
  match e with
  | Param => Some param
  | Lit v => Some v
  | Member e name =>
      v ← eval host param e; StatusHook.read_prop v name
  | Split e sep =>
      v ← eval host param e;
      match v with
      | Str s => Some (Arr (map Str (Js.split sep s)))
      | _ => None
      end
  | Index e i =>
      v ← eval host param e;
      match v with
      | Undefined | Null => None
      | Arr items => Some (nth i items Undefined)
      | Str s => Some match String.get i s with
                      | Some c => Str (String c EmptyString)
                      | None => Undefined
                      end
      | _ => Some Undefined
      end
  | Or a b =>
      va ← eval host param a;
      if truthy va then Some va else eval host param b
  | NotIdenticalTo e literal =>
      v ← eval host param e;
      Some (Bool match v with
                 | Str s => negb (String.eqb s literal)
                 | _ => true
                 end)
  | Cond c a b =>
      vc ← eval host param c;
      if truthy vc then eval host param a else eval host param b
  | Object fields =>
      Obj <$>
        (fix each (fs : list (string * expr)) : option (list (string * value)) :=
           match fs with
           | [] => Some []
           | (k, e') :: rest =>
               v ← eval host param e';
               vs ← each rest;
               Some ((k, v) :: vs)
           end) fields
  | DateNow => Some (Num (number_of_Z (now host)))
  | MathRandom =>
      Some (Num (PrimFloat.div (number_of_Z (randomState host))
                   (number_of_Z 9007199254740992)))
  | TimezoneOffset => Some (Num (number_of_Z (- timezoneOffset host)))
  end.

(** Whether an expression holds one of the three constructs that look at
    the process. *)
Fixpoint reads_ambient (e : expr) : bool :=
  match e with
  | Param | Lit _ => false
  | Member e _ | Split e _ | Index e _ | NotIdenticalTo e _ => reads_ambient e
  | Or a b => reads_ambient a || reads_ambient b
  | Cond c a b => reads_ambient c || reads_ambient a || reads_ambient b
  | Object fields =>
      (fix any (fs : list (string * expr)) : bool :=
         match fs with
         | [] => false
         | (_, e') :: rest => reads_ambient e' || any rest
         end) fields
  | DateNow | MathRandom | TimezoneOffset => true
  end.

(** The object literal that [normalizeTrueLayerTransaction] returns, with
    [Param] for [tlTransaction]. *)
Definition body : expr :=
  Object
    [("transactionId", Member Param "transaction_id");
     ("date", Index (Split (Member Param "timestamp") "T") 0);
     ("payeeName",
      Or (Member Param "merchant_name") (Member Param "description"));
     ("notes", Member Param "description");
     ("booked", NotIdenticalTo (Member Param "transaction_type") "PENDING");
     ("transactionAmount",
      Object [("amount", Member Param "amount");
              ("currency", Member Param "currency")]);
     ("balanceAfterTransaction",
      Cond (Member Param "running_balance")
        (Object
           [("amount", Member (Member Param "running_balance") "amount");
            ("currency", Member (Member Param "running_balance") "currency")])
        (Lit Undefined))].

(** The records of [Normalizer] as the objects they stand for; an absent
    optional field is a field the object does not have. *)
Definition money_value (m : Money) : value :=
  Obj [("amount", Num (amount m)); ("currency", Str (currency m))].

Definition transaction_value (tl : TrueLayerTransaction) : value :=
  Obj ([("transaction_id", Str (transaction_id tl));
        ("timestamp", Str (timestamp tl));
        ("description", Str (description tl));
        ("amount", Num (tl_amount tl));
        ("currency", Str (tl_currency tl));
        ("transaction_type", Str (transaction_type tl));
        ("transaction_category", Str (transaction_category tl))]
       ++ match merchant_name tl with
          | Some m => [("merchant_name", Str m)]
          | None => []
          end
       ++ match running_balance tl with
          | Some rb => [("running_balance", money_value rb)]
          | None => []
          end)%list.

Definition result_value (out : BankSyncTransaction) : value :=
  Obj [("transactionId", Str (transactionId out));
       ("date", match date out with Some d => Str d | None => Undefined end);
       ("payeeName", Str (payeeName out));
       ("notes", Str (notes out));
       ("booked", Bool (booked out));
       ("transactionAmount", money_value (transactionAmount out));
       ("balanceAfterTransaction",
        match balanceAfterTransaction out with
        | Some m => money_value m
        | None => Undefined
        end)].
End NormalizerSource.

(** ** The [catch] block of the two fetches *)
Module FetchCatch.
Import SyncServer.

(** [catch (error) { console.error(`<prefix>${error.message}`); throw error; }]
    of [getAccounts] and [getTransactions], for the text in front of the
    message. *)
Definition logged_rethrow {A} (prefix : string) : Error -> JS A :=
  fun error =>
    console_error (prefix ++ message error);;
    throw error.

(** The process with one more console line. *)
Definition logged (line : string) (p : Process) : Process :=
  {| secrets := secrets p; tinkClient := tinkClient p;
     console := console p ++ [line]; sent := sent p |}.

End FetchCatch.

(** ** [onSubmit] with requests that can fail

    [InitModal.onSubmit] follows the routine for requests that are
    answered. [send] returns a promise, and [onSubmit] awaits it without a
    [try]: when the promise is rejected the routine stops at that [await]
    and its own promise is rejected. *)
Module SubmitAsync.
Import InitModal.

(** How the promise of one [send('secret-set', ...)] settles. *)
Inductive settled :=
| Resolved (reply : option SecretSetReply)
| Rejected.

(** The end of a run, and whether the promise of [onSubmit] was
    rejected. *)
Record AsyncRun (B : Type) := {
  ended : Run B;
  rejected : bool
}.
Arguments ended {B} _.
Arguments rejected {B} _.

Section OnSubmit.

Variable B : Type.
Variable send_secret : string -> string -> B -> settled * B.
Variable t : string -> string.
Variable getSecretsError : option string -> option string -> string.

(** [onSubmit(close)]. *)
Definition onSubmit (s : ModalState) (b : B) : AsyncRun B :=
  if negb (Js.truthy_string (clientId s))
     || negb (Js.truthy_string (clientSecret s))
     || negb (Js.truthy_string (market s))
  then
    {| ended :=
         {| state :=
              setError
                (t "It is required to provide the client ID, client secret, and market.")
                (setIsValid false s);
            backend := b;
            calls := [] |};
       rejected := false |}
  else
    let s1 := setIsLoading true s in
    match send_secret "tink_clientId" (clientId s) b with
    | (Rejected, b1) =>
        {| ended :=
             {| state := s1; backend := b1;
                calls := [SecretSet "tink_clientId" (clientId s)] |};
           rejected := true |}
    | (Resolved reply1, b1) =>
    if reports_error reply1 then
      {| ended :=
           {| state := fail getSecretsError reply1 s1;
              backend := b1;
              calls := [SecretSet "tink_clientId" (clientId s)] |};
         rejected := false |}
    else
      match send_secret "tink_clientSecret" (clientSecret s) b1 with
      | (Rejected, b2) =>
          {| ended :=
               {| state := s1; backend := b2;
                  calls := [SecretSet "tink_clientId" (clientId s);
                            SecretSet "tink_clientSecret" (clientSecret s)] |};
             rejected := true |}
      | (Resolved reply2, b2) =>
      if reports_error reply2 then
        {| ended :=
             {| state := fail getSecretsError reply2 s1;
                backend := b2;
                calls := [SecretSet "tink_clientId" (clientId s);
                          SecretSet "tink_clientSecret" (clientSecret s)] |};
           rejected := false |}
      else
        match send_secret "tink_market" (market s) b2 with
        | (Rejected, b3) =>
            {| ended :=
                 {| state := s1; backend := b3;
                    calls := [SecretSet "tink_clientId" (clientId s);
                              SecretSet "tink_clientSecret" (clientSecret s);
                              SecretSet "tink_market" (market s)] |};
               rejected := true |}
        | (Resolved reply3, b3) =>
        if reports_error reply3 then
          {| ended :=
               {| state := fail getSecretsError reply3 s1;
                  backend := b3;
                  calls := [SecretSet "tink_clientId" (clientId s);
                            SecretSet "tink_clientSecret" (clientSecret s);
                            SecretSet "tink_market" (market s)] |};
             rejected := false |}
        else
          {| ended :=
               {| state := setIsLoading false (setIsValid true s1);
                  backend := b3;
                  calls := [SecretSet "tink_clientId" (clientId s);
                            SecretSet "tink_clientSecret" (clientSecret s);
                            SecretSet "tink_market" (market s);
                            OnSuccess;
                            Close] |};
             rejected := false |}
        end
      end
    end.

End OnSubmit.

Arguments onSubmit {B} send_secret t getSecretsError s b.

(** A backend whose requests are all answered. *)
Definition answered {B : Type}
    (secret_set : string -> string -> B -> option SecretSetReply * B)
    : string -> string -> B -> settled * B :=
  fun name value b =>
    (Resolved (fst (secret_set name value b)), snd (secret_set name value b)).

(** A store that accepts what it is sent, behind a connection that drops
    every request for the names in [dropped] before it reaches the store. *)
Definition flaky (dropped : list string) (name value : string)
    (store : gmap string string) : settled * gmap string string :=
  if existsb (String.eqb name) dropped
  then (Rejected, store)
  else (Resolved (Some {| error := None; reason := None |}),
        <[name := value]> store).

(** A form on which an earlier submit left its banner. *)
Definition with_banner (text : string) (s : ModalState) : ModalState :=
  setError text (setIsValid false s).

End SubmitAsync.

(** ** Properties of the normalizer *)
Module NormalizerFacts.
Import Normalizer.

Example acme_normalized :
  normalizeTrueLayerTransaction utc acme =
  {| transactionId := "a6f4e8";
     date := Some "2024-01-15";
     payeeName := "ACME Corp";
     notes := "ACME CORP LONDON";
     booked := true;
     transactionAmount := {| amount := (-42.50)%float; currency := "GBP" |};
     balanceAfterTransaction :=
       Some {| amount := 1234.56%float; currency := "GBP" |} |}.
Proof. reflexivity. Qed.

(** *** [split] *)

Lemma split_first_some sep s : exists piece, Js.first (Js.split sep s) = Some piece.
Proof.
  induction s as [|c rest IH]; simpl.
  - now exists EmptyString.
  - destruct (Ascii.eqb c sep).
    + now exists EmptyString.
    + destruct (Js.split sep rest) as [|piece pieces]; eauto.
Qed.

(** The first piece is the text in front of the first separator: it holds
    no separator, and what follows it in [s] is nothing or starts with the
    separator. *)
Lemma split_first_prefix sep s piece :
  Js.first (Js.split sep s) = Some piece ->
  Js.occurs sep piece = false /\
  exists rest, s = piece ++ rest /\
               (rest = EmptyString \/ exists tail, rest = String sep tail).
Proof.
  revert piece. induction s as [|c s' IH]; intros piece; simpl.
  - intros [= <-]. split; [reflexivity|]. exists EmptyString. auto.
  - destruct (Ascii.eqb_spec c sep) as [->|Hne].
    + intros [= <-]. split; [reflexivity|]. exists (String sep s'). eauto.
    + destruct (Js.split sep s') as [|p ps] eqn:Hs.
      * destruct (split_first_some sep s') as [q Hq].
        rewrite Hs in Hq. discriminate.
      * intros [= <-]. destruct (IH p eq_refl) as [Hocc [rest [-> Hrest]]].
        split.
        -- simpl. rewrite Hocc.
           destruct (Ascii.eqb_spec c sep); [contradiction | reflexivity].
        -- exists rest. auto.
Qed.

(** Conversely a separator-free prefix followed by the separator is what
    [split(...)[0]] returns. *)
Lemma split_first_of_prefix sep piece tail :
  Js.occurs sep piece = false ->
  Js.first (Js.split sep (piece ++ String sep tail)) = Some piece.
Proof.
  induction piece as [|c p IH]; simpl.
  - intros _. now rewrite Ascii.eqb_refl.
  - destruct (Ascii.eqb c sep); simpl; [discriminate|].
    intros Hocc. specialize (IH Hocc).
    destruct (Js.split sep (p ++ String sep tail)) as [|q qs];
      [discriminate|].
    now injection IH as ->.
Qed.

Lemma strict_ne_false x y : Js.strict_ne x y = false <-> x = y.
Proof.
  unfold Js.strict_ne. destruct (String.eqb_spec x y); simpl; split;
    congruence.
Qed.

Lemma strict_ne_true x y : Js.strict_ne x y = true <-> x <> y.
Proof.
  unfold Js.strict_ne. destruct (String.eqb_spec x y); simpl; split;
    congruence.
Qed.

Lemma truthy_string_true s : Js.truthy_string s = true <-> s <> EmptyString.
Proof. destruct s; simpl; split; congruence. Qed.

(** *** Specified properties *)

(** C5: a transaction whose status ([transaction_type]) is PENDING is
    normalized to [booked = false], and every other status to
    [booked = true]. *)
Theorem booked_iff_not_pending (host : Ambient) (tl : TrueLayerTransaction) :
  (booked (normalizeTrueLayerTransaction host tl) = false
     <-> transaction_type tl = "PENDING") /\
  (booked (normalizeTrueLayerTransaction host tl) = true
     <-> transaction_type tl <> "PENDING").
Proof.
  simpl. split; [apply strict_ne_false | apply strict_ne_true].
Qed.

(** C6: the output date is the part of the timestamp in front of its
    first 'T' (it always exists, holds no 'T', and the timestamp continues
    with 'T' or ends there); "2024-01-15T10:30:00Z" gives "2024-01-15" in
    UTC and thirteen hours east of it alike, and no ambient timezone
    changes the date of any transaction. *)
Theorem date_is_utc_prefix (host : Ambient) (tl : TrueLayerTransaction) :
  (exists d rest,
      date (normalizeTrueLayerTransaction host tl) = Some d /\
      timestamp tl = d ++ rest /\
      Js.occurs "T" d = false /\
      (rest = EmptyString \/ exists tail, rest = String "T" tail)) /\
  (forall d tail,
      Js.occurs "T" d = false ->
      timestamp tl = d ++ String "T" tail ->
      date (normalizeTrueLayerTransaction host tl) = Some d) /\
  date (normalizeTrueLayerTransaction utc acme) = Some "2024-01-15" /\
  date (normalizeTrueLayerTransaction auckland acme) = Some "2024-01-15" /\
  (forall other : Ambient,
      date (normalizeTrueLayerTransaction other tl) =
      date (normalizeTrueLayerTransaction host tl)).
Proof.
  repeat split; try reflexivity.
  - simpl. destruct (split_first_some "T" (timestamp tl)) as [d Hd].
    destruct (split_first_prefix _ _ _ Hd) as [Hocc [rest [Hts Hrest]]].
    exists d, rest. auto.
  - intros d tail Hocc Hts. simpl. rewrite Hts.
    now apply split_first_of_prefix.
Qed.

Lemma date_is_utc_prefix_witness :
  date (normalizeTrueLayerTransaction auckland acme) = Some "2024-01-15".
Proof.
  exact (proj1 (proj2 (date_is_utc_prefix auckland acme))
           "2024-01-15" "10:30:00Z" eq_refl eq_refl).
Defined.

(** A transaction that names no merchant and has an empty description. *)
Definition anonymous : TrueLayerTransaction :=
  {| transaction_id := "b71c09";
     timestamp := "2024-02-01T08:00:00Z";
     description := "";
     tl_amount := 10%float;
     tl_currency := "GBP";
     transaction_type := "CREDIT";
     transaction_category := "TRANSFER";
     merchant_name := None;
     running_balance := None |}.

(** C7, as stated, fails: with no merchant name and an empty description
    the payee name is the empty description, not "Unknown". *)
Lemma payee_unknown_counterexample :
  merchant_name anonymous = None /\
  description anonymous = "" /\
  payeeName (normalizeTrueLayerTransaction utc anonymous) = "" /\
  payeeName (normalizeTrueLayerTransaction utc anonymous) <> "Unknown".
Proof. repeat split; discriminate. Qed.

(** C7, amended: the payee name is the merchant name when that is present
    and non-empty, and the raw description in every other case, an empty
    description included; a transaction is given the name "Unknown" only
    when its merchant name or description is that very string. *)
Theorem payee_merchant_else_description
    (host : Ambient) (tl : TrueLayerTransaction) :
  (forall m, merchant_name tl = Some m -> m <> "" ->
             payeeName (normalizeTrueLayerTransaction host tl) = m) /\
  (merchant_name tl = None \/ merchant_name tl = Some "" ->
   payeeName (normalizeTrueLayerTransaction host tl) = description tl) /\
  (payeeName (normalizeTrueLayerTransaction host tl) = "Unknown" ->
   merchant_name tl = Some "Unknown" \/ description tl = "Unknown").
Proof.
  simpl. unfold Js.or_else. repeat split.
  - intros m -> Hm. apply truthy_string_true in Hm. now rewrite Hm.
  - now intros [-> | ->].
  - destruct (merchant_name tl) as [m|]; [|now right].
    destruct (Js.truthy_string m); [intros ->; now left | now right].
Qed.

Lemma payee_merchant_else_description_witness :
  payeeName (normalizeTrueLayerTransaction utc acme) = "ACME Corp" /\
  payeeName (normalizeTrueLayerTransaction utc anonymous) = "".
Proof.
  split.
  - apply (proj1 (payee_merchant_else_description utc acme) "ACME Corp");
      [reflexivity | discriminate].
  - apply (proj1 (proj2 (payee_merchant_else_description utc anonymous))).
    left. reflexivity.
Defined.

(** C8: without a [running_balance] the output's
    [balanceAfterTransaction] is undefined, so it is no balance of zero in
    any currency; with one, it carries that amount and that currency. *)
Theorem balance_after_absent_or_exact
    (host : Ambient) (tl : TrueLayerTransaction) :
  (running_balance tl = None ->
   balanceAfterTransaction (normalizeTrueLayerTransaction host tl) = None /\
   forall c, balanceAfterTransaction (normalizeTrueLayerTransaction host tl)
             <> Some {| amount := 0%float; currency := c |}) /\
  (forall rb, running_balance tl = Some rb ->
     exists b,
       balanceAfterTransaction (normalizeTrueLayerTransaction host tl)
         = Some b /\
       amount b = amount rb /\ currency b = currency rb).
Proof.
  simpl. split.
  - intros ->. split; [reflexivity | discriminate].
  - intros rb ->. eexists. repeat split.
Qed.

Lemma balance_after_absent_or_exact_witness :
  balanceAfterTransaction (normalizeTrueLayerTransaction utc anonymous)
    = None /\
  exists b,
    balanceAfterTransaction (normalizeTrueLayerTransaction utc acme)
      = Some b /\
    amount b = 1234.56%float /\ currency b = "GBP".
Proof.
  split.
  - exact (proj1 (proj1 (balance_after_absent_or_exact utc anonymous)
                    eq_refl)).
  - exact (proj2 (balance_after_absent_or_exact utc acme)
             {| amount := 1234.56%float; currency := "GBP" |} eq_refl).
Defined.

End NormalizerFacts.

(** ** Properties of the service and of the routes *)
Module ServerFacts.
Import SyncServer.

Lemma truthy_opt_true (v : option string) :
  Js.truthy_opt v = true <-> exists s, v = Some s /\ s <> "".
Proof.
  destruct v as [s|]; simpl.
  - rewrite NormalizerFacts.truthy_string_true. split.
    + intros H. now exists s.
    + now intros [s' [[= <-] H]].
  - split; [discriminate | now intros [s [? _]]].
Qed.

Lemma truthy_and_also (a b : option string) :
  Js.truthy_opt (Js.and_also a b) = Js.truthy_opt a && Js.truthy_opt b.
Proof.
  unfold Js.and_also. destruct (Js.truthy_opt a) eqn:Ha; simpl; auto.
Qed.

Section Engine.

Variable capture_stack : string -> string.
Variable on_error : Request -> Error -> JS unit.

Lemma isConfigured_run (p : Process) :
  isConfigured (tinkService capture_stack) p =
  (Returned (Js.truthy_opt (secrets p !! "tink_clientId")
             && Js.truthy_opt (secrets p !! "tink_clientSecret")), p).
Proof.
  unfold tinkService, isConfigured, bind, secretsService_get, ret. simpl.
  now rewrite truthy_and_also.
Qed.

Lemma getAccounts_run (p : Process) :
  getAccounts (tinkService capture_stack) p =
  (Thrown (new_Error capture_stack "Tink account fetching not yet implemented"),
   after_fetch
     "Error fetching Tink accounts: Tink account fetching not yet implemented"
     p).
Proof. destruct p as [store [client|] log out]; reflexivity. Qed.

Lemma getTransactions_run (accountId startDate : value) (p : Process) :
  getTransactions (tinkService capture_stack) accountId startDate p =
  (Thrown
     (new_Error capture_stack "Tink transaction fetching not yet implemented"),
   after_fetch
     "Error fetching Tink transactions: Tink transaction fetching not yet implemented"
     p).
Proof. destruct p as [store [client|] log out]; reflexivity. Qed.

Lemma post_status_response (req : Request) (p : Process) :
  response (handlers capture_stack on_error Status req) p =
  (sent p ++ [configured_body
                (Js.truthy_opt (secrets p !! "tink_clientId")
                 && Js.truthy_opt (secrets p !! "tink_clientSecret"))])%list.
Proof.
  unfold response, handlers, routes, post_status, handleError, try_catch, bind.
  now rewrite isConfigured_run.
Qed.

(** What [/accounts] and [/transactions] answer over any service whose call
    throws. *)
Lemma post_accounts_thrown (service : TinkService) (req : Request)
    (p p' : Process) (e : Error) :
  getAccounts service p = (Thrown e, p') ->
  post_accounts on_error service req p =
  res_send (error_body (message e)) p'.
Proof.
  intros H. unfold post_accounts, handleError, try_catch, bind. now rewrite H.
Qed.

Lemma post_transactions_thrown (service : TinkService) (req : Request)
    (p p' : Process) (e : Error) :
  getTransactions service
    (prop (or_value (body req) (Obj [])) "accountId")
    (prop (or_value (body req) (Obj [])) "startDate") p = (Thrown e, p') ->
  post_transactions on_error service req p =
  res_send (error_body (message e)) p'.
Proof.
  intros H. unfold post_transactions, handleError, try_catch, bind.
  now rewrite H.
Qed.

Lemma post_accounts_response (req : Request) (p : Process) :
  response (handlers capture_stack on_error Accounts req) p =
  (sent p ++ [error_body "Tink account fetching not yet implemented"])%list.
Proof.
  unfold response, handlers, routes.
  now rewrite (post_accounts_thrown _ _ _ _ _ (getAccounts_run p)).
Qed.

Lemma post_transactions_response (req : Request) (p : Process) :
  response (handlers capture_stack on_error Transactions req) p =
  (sent p ++ [error_body "Tink transaction fetching not yet implemented"])%list.
Proof.
  unfold response, handlers, routes.
  now rewrite (post_transactions_thrown _ _ _ _ _ (getTransactions_run _ _ p)).
Qed.

(** C1: POST /status answers, for every request, with a body whose [data]
    holds the boolean [configured]; it is [true] exactly when the store
    holds a non-empty [tink_clientId] and a non-empty [tink_clientSecret];
    a process that agrees on these two secrets gets the same answer, so
    setting or deleting [tink_market] changes nothing. *)
Theorem status_reports_configured (req : Request) (p : Process) :
  exists configured : bool,
    response (handlers capture_stack on_error Status req) p
      = (sent p ++ [configured_body configured])%list /\
    prop (prop (configured_body configured) "data") "configured"
      = Bool configured /\
    (configured = true <->
     exists id secret,
       secrets p !! "tink_clientId" = Some id /\ id <> "" /\
       secrets p !! "tink_clientSecret" = Some secret /\ secret <> "") /\
    (forall q : Process,
       secrets q !! "tink_clientId" = secrets p !! "tink_clientId" ->
       secrets q !! "tink_clientSecret" = secrets p !! "tink_clientSecret" ->
       response (handlers capture_stack on_error Status req) q
         = (sent q ++ [configured_body configured])%list) /\
    (forall mkt,
       response (handlers capture_stack on_error Status req)
         (with_secrets (<["tink_market" := mkt]> (secrets p)) p)
         = (sent p ++ [configured_body configured])%list) /\
    response (handlers capture_stack on_error Status req)
      (with_secrets (delete "tink_market" (secrets p)) p)
      = (sent p ++ [configured_body configured])%list.
Proof.
  exists (Js.truthy_opt (secrets p !! "tink_clientId")
          && Js.truthy_opt (secrets p !! "tink_clientSecret")).
  split; [apply post_status_response|].
  split; [reflexivity|].
  split.
  - rewrite andb_true_iff, !truthy_opt_true. split.
    + intros [[id [Hid Hne]] [secret [Hs Hnes]]]. now exists id, secret.
    + intros [id [secret [Hid [Hne [Hs Hnes]]]]]. split; eauto.
  - split; [|split].
    + intros q Hid Hs. rewrite post_status_response. now rewrite Hid, Hs.
    + intros mkt. rewrite post_status_response. simpl.
      now rewrite !lookup_insert_ne by discriminate.
    + rewrite post_status_response. simpl.
      now rewrite !lookup_delete_ne by discriminate.
Qed.

(** C3: whatever the process state and the arguments, [getAccounts] and
    [getTransactions] end by throwing an [Error] whose message says that
    the fetch is not yet implemented; neither returns a value. *)
Theorem fetches_always_throw (accountId startDate : value) (p : Process) :
  (exists e p',
      getAccounts (tinkService capture_stack) p = (Thrown e, p') /\
      message e = "Tink account fetching not yet implemented" /\
      Js.includes "not yet implemented" (message e) = true) /\
  (exists e p',
      getTransactions (tinkService capture_stack) accountId startDate p
        = (Thrown e, p') /\
      message e = "Tink transaction fetching not yet implemented" /\
      Js.includes "not yet implemented" (message e) = true) /\
  (forall v, fst (getAccounts (tinkService capture_stack) p) <> Returned v) /\
  (forall v,
      fst (getTransactions (tinkService capture_stack) accountId startDate p)
      <> Returned v).
Proof.
  rewrite getAccounts_run, getTransactions_run. repeat split.
  - eexists _, _. repeat split.
  - eexists _, _. repeat split.
  - discriminate.
  - discriminate.
Qed.

(** C4: when the service call throws [e], POST /accounts and POST
    /transactions answer [{ status: 'ok', data: { error: e.message } }]:
    the [error] field is the message string and nothing else of the
    exception is sent, so the engine's stack text never shows in the answer;
    with the service as it is, every request to either route gets the
    answer with that route's message. *)
Theorem failure_sent_as_error_message
    (service : TinkService) (req : Request) (p p' : Process) (e : Error) :
  (getAccounts service p = (Thrown e, p') ->
   response (post_accounts on_error service req) p
     = (sent p' ++ [error_body (message e)])%list) /\
  (getTransactions service
     (prop (or_value (body req) (Obj [])) "accountId")
     (prop (or_value (body req) (Obj [])) "startDate") p = (Thrown e, p') ->
   response (post_transactions on_error service req) p
     = (sent p' ++ [error_body (message e)])%list) /\
  prop (prop (error_body (message e)) "data") "error" = Str (message e) /\
  response (handlers capture_stack on_error Accounts req) p
    = (sent p ++ [error_body "Tink account fetching not yet implemented"])%list /\
  response (handlers capture_stack on_error Transactions req) p
    = (sent p
       ++ [error_body "Tink transaction fetching not yet implemented"])%list /\
  (forall other_stack : string -> string,
      response (handlers other_stack on_error Accounts req) p
        = response (handlers capture_stack on_error Accounts req) p /\
      response (handlers other_stack on_error Transactions req) p
        = response (handlers capture_stack on_error Transactions req) p).
Proof.
  split; [|split; [|split; [|split; [|split]]]].
  - intros H. unfold response. now rewrite (post_accounts_thrown _ _ _ _ _ H).
  - intros H. unfold response.
    now rewrite (post_transactions_thrown _ _ _ _ _ H).
  - reflexivity.
  - apply post_accounts_response.
  - apply post_transactions_response.
  - intros other. unfold response, handlers, routes.
    rewrite
      (post_accounts_thrown _ _ _ _ _ (getAccounts_run p)),
      (post_transactions_thrown _ _ _ _ _ (getTransactions_run _ _ p)).
    unfold post_accounts, post_transactions, handleError, try_catch, bind.
    destruct p as [store [client|] log out]; split; reflexivity.
Qed.

(** C2, amended: for every request POST /accounts and POST /transactions
    answer with their "not yet implemented" message in [data.error] and
    leave the credential store as it was; POST /status does its work and
    answers with [data.configured], which is no error. *)
Theorem fetch_routes_not_implemented (req : Request) (p : Process) :
  response (handlers capture_stack on_error Accounts req) p
    = (sent p ++ [error_body "Tink account fetching not yet implemented"])%list /\
  response (handlers capture_stack on_error Transactions req) p
    = (sent p
       ++ [error_body "Tink transaction fetching not yet implemented"])%list /\
  secrets (snd (handlers capture_stack on_error Accounts req p)) = secrets p /\
  secrets (snd (handlers capture_stack on_error Transactions req p))
    = secrets p /\
  exists configured : bool,
    response (handlers capture_stack on_error Status req) p
      = (sent p ++ [configured_body configured])%list /\
    prop (prop (configured_body configured) "data") "error" = Undefined.
Proof.
  split; [apply post_accounts_response|].
  split; [apply post_transactions_response|].
  split; [|split].
  - unfold handlers, routes.
    now rewrite (post_accounts_thrown _ _ _ _ _ (getAccounts_run p)).
  - unfold handlers, routes.
    now rewrite
      (post_transactions_thrown _ _ _ _ _ (getTransactions_run _ _ p)).
  - eexists. split; [apply post_status_response | reflexivity].
Qed.

End Engine.

Lemma status_reports_configured_witness :
  response (handlers no_stack swallow Status {| body := Obj [] |})
    (boot full_store) = [configured_body true].
Proof.
  destruct (status_reports_configured no_stack swallow {| body := Obj [] |}
              (boot full_store)) as (configured & Hsent & _ & Hiff & _).
  rewrite Hsent. simpl. f_equal. f_equal. apply Hiff.
  exists "id-123", "s3cret". repeat split; discriminate.
Defined.

Lemma failure_sent_as_error_message_witness :
  response (post_accounts swallow (tinkService no_stack) {| body := Null |})
    (boot ∅)
  = [error_body "Tink account fetching not yet implemented"].
Proof.
  exact (proj1 (failure_sent_as_error_message no_stack swallow
                  (tinkService no_stack) {| body := Null |} (boot ∅)
                  (after_fetch
                     "Error fetching Tink accounts: Tink account fetching not yet implemented"
                     (boot ∅))
                  (new_Error no_stack
                     "Tink account fetching not yet implemented"))
           eq_refl).
Defined.

(** C2, as stated, fails: on a server without credentials POST /status
    answers [{ status: 'ok', data: { configured: false } }], a body with no
    [error] in it. *)
Lemma status_route_counterexample :
  response (handlers no_stack swallow Status {| body := Obj [] |}) (boot ∅)
    = [Obj [("status", Str "ok"); ("data", Obj [("configured", Bool false)])]] /\
  prop (prop (Obj [("status", Str "ok");
                   ("data", Obj [("configured", Bool false)])]) "data") "error"
    = Undefined /\
  forall msg,
    response (handlers no_stack swallow Status {| body := Obj [] |}) (boot ∅)
    <> [error_body msg].
Proof. repeat split. discriminate. Qed.

End ServerFacts.

(** ** Properties of the modal's submit routine *)
Module ModalFacts.
Import InitModal.

Lemma truthy_string_false s : Js.truthy_string s = false <-> s = "".
Proof. destruct s; simpl; split; congruence. Qed.

Section Submit.

Variable B : Type.
Variable secret_set : string -> string -> B -> option SecretSetReply * B.
Variable t : string -> string.
Variable getSecretsError : option string -> option string -> string.

(** A guard that fires: nothing is sent. *)
Lemma onSubmit_missing_field (s : ModalState) (b : B) :
  clientId s = "" \/ clientSecret s = "" \/ market s = "" ->
  calls (onSubmit secret_set t getSecretsError s b) = [] /\
  backend (onSubmit secret_set t getSecretsError s b) = b.
Proof.
  intros H. unfold onSubmit.
  destruct H as [-> | [-> | ->]]; simpl;
    rewrite ?orb_true_r; simpl; auto.
Qed.

Lemma guard_passes (s : ModalState) :
  clientId s <> "" -> clientSecret s <> "" -> market s <> "" ->
  negb (Js.truthy_string (clientId s))
  || negb (Js.truthy_string (clientSecret s))
  || negb (Js.truthy_string (market s)) = false.
Proof.
  intros H1 H2 H3.
  apply NormalizerFacts.truthy_string_true in H1, H2, H3.
  now rewrite H1, H2, H3.
Qed.

(** With the three fields filled in, the routine is the sequential writer
    of the specification, followed by [onSuccess] and [close] when no write
    reported an error. *)
Lemma onSubmit_filled (s : ModalState) (b : B) :
  clientId s <> "" -> clientSecret s <> "" -> market s <> "" ->
  writes (calls (onSubmit secret_set t getSecretsError s b))
    = fst (write_until_error secret_set (three_secrets s) b) /\
  backend (onSubmit secret_set t getSecretsError s b)
    = snd (write_until_error secret_set (three_secrets s) b) /\
  (called_onSuccess (calls (onSubmit secret_set t getSecretsError s b)) = false /\
   calls (onSubmit secret_set t getSecretsError s b)
     = writes (calls (onSubmit secret_set t getSecretsError s b))
   \/
   called_onSuccess (calls (onSubmit secret_set t getSecretsError s b)) = true /\
   calls (onSubmit secret_set t getSecretsError s b)
     = [SecretSet "tink_clientId" (clientId s);
        SecretSet "tink_clientSecret" (clientSecret s);
        SecretSet "tink_market" (market s);
        OnSuccess; Close]) /\
  (called_onSuccess (calls (onSubmit secret_set t getSecretsError s b)) = true
   <->
   reports_error (fst (secret_set "tink_clientId" (clientId s) b)) = false /\
   reports_error
     (fst (secret_set "tink_clientSecret" (clientSecret s)
             (snd (secret_set "tink_clientId" (clientId s) b)))) = false /\
   reports_error
     (fst (secret_set "tink_market" (market s)
             (snd (secret_set "tink_clientSecret" (clientSecret s)
                     (snd (secret_set "tink_clientId" (clientId s) b))))))
     = false).
Proof.
  intros H1 H2 H3. unfold onSubmit, three_secrets.
  rewrite (guard_passes s H1 H2 H3). cbn [write_until_error].
  destruct (secret_set "tink_clientId" (clientId s) b) as [r1 b1].
  cbn [fst snd].
  destruct (reports_error r1) eqn:E1.
  { cbn. repeat split; auto; try discriminate. now intros [? _]. }
  destruct (secret_set "tink_clientSecret" (clientSecret s) b1) as [r2 b2].
  cbn [fst snd].
  destruct (reports_error r2) eqn:E2.
  { cbn. repeat split; auto; try discriminate. now intros (_ & ? & _). }
  destruct (secret_set "tink_market" (market s) b2) as [r3 b3].
  cbn [fst snd].
  destruct (reports_error r3) eqn:E3.
  { cbn. repeat split; auto; try discriminate. now intros (_ & _ & ?). }
  cbn. repeat split; auto.
Qed.

End Submit.

(** Over a store that takes [tink_clientId] and refuses
    [tink_clientSecret], the first secret stays written. *)
Lemma store_keeps_first_write
    (t : string -> string)
    (getSecretsError : option string -> option string -> string)
    (refused : list string) (s : ModalState) (store : gmap string string) :
  clientId s <> "" -> clientSecret s <> "" -> market s <> "" ->
  existsb (String.eqb "tink_clientId") refused = false ->
  existsb (String.eqb "tink_clientSecret") refused = true ->
  backend (onSubmit (store_set refused) t getSecretsError s store)
    !! "tink_clientId" = Some (clientId s) /\
  called_onSuccess
    (calls (onSubmit (store_set refused) t getSecretsError s store)) = false.
Proof.
  intros H1 H2 H3 Hid Hsecret. unfold onSubmit.
  rewrite (guard_passes s H1 H2 H3).
  assert (E1 : store_set refused "tink_clientId" (clientId s) store
               = (Some {| error := None; reason := None |},
                  <["tink_clientId" := clientId s]> store))
    by (unfold store_set; now rewrite Hid).
  assert (E2 : forall st,
             store_set refused "tink_clientSecret" (clientSecret s) st
             = (Some {| error := Some "unauthorized";
                        reason := Some "not-admin" |}, st))
    by (intros st; unfold store_set; now rewrite Hsecret).
  rewrite E1. change (reports_error (Some {| error := None; reason := None |}))
    with false. cbv iota.
  rewrite E2. cbn.
  split; [apply lookup_insert_eq | reflexivity].
Qed.

(** C10, as stated, fails: with the client ID and the secret filled in and
    the market left empty, a store that accepts every write receives none,
    where writing in order until an error would have written all three. *)
Lemma no_market_counterexample :
  calls (onSubmit (store_set []) untranslated error_code
           (filled "id-123" "s3cret" "") ∅) = [] /\
  backend (onSubmit (store_set []) untranslated error_code
             (filled "id-123" "s3cret" "") ∅) = ∅ /\
  fst (write_until_error (store_set [])
         (three_secrets (filled "id-123" "s3cret" "")) ∅)
    = [SecretSet "tink_clientId" "id-123";
       SecretSet "tink_clientSecret" "s3cret";
       SecretSet "tink_market" ""] /\
  writes (calls (onSubmit (store_set []) untranslated error_code
                   (filled "id-123" "s3cret" "") ∅))
    <> fst (write_until_error (store_set [])
              (three_secrets (filled "id-123" "s3cret" "")) ∅).
Proof. repeat split. discriminate. Qed.

(** C10, amended: when one of the three fields is empty nothing is written
    and nothing is called. When all three are filled in, the secrets are
    written in the order [tink_clientId], [tink_clientSecret],
    [tink_market], stopping at the first write that reports an error; the
    backend is left as those writes left it and no other call is made,
    unless all three writes succeeded, in which case, and only then,
    [onSuccess] (and [close]) follow; over a store that takes the client ID
    and refuses the secret, the client ID stays in the store. *)
Theorem submit_writes_in_order
    (B : Type)
    (secret_set : string -> string -> B -> option SecretSetReply * B)
    (t : string -> string)
    (getSecretsError : option string -> option string -> string)
    (s : ModalState) (b : B) :
  (clientId s = "" \/ clientSecret s = "" \/ market s = "" ->
   calls (onSubmit secret_set t getSecretsError s b) = [] /\
   backend (onSubmit secret_set t getSecretsError s b) = b) /\
  (clientId s <> "" -> clientSecret s <> "" -> market s <> "" ->
   writes (calls (onSubmit secret_set t getSecretsError s b))
     = fst (write_until_error secret_set (three_secrets s) b) /\
   backend (onSubmit secret_set t getSecretsError s b)
     = snd (write_until_error secret_set (three_secrets s) b) /\
   (called_onSuccess (calls (onSubmit secret_set t getSecretsError s b))
      = false /\
    calls (onSubmit secret_set t getSecretsError s b)
      = writes (calls (onSubmit secret_set t getSecretsError s b))
    \/
    called_onSuccess (calls (onSubmit secret_set t getSecretsError s b))
      = true /\
    calls (onSubmit secret_set t getSecretsError s b)
      = [SecretSet "tink_clientId" (clientId s);
         SecretSet "tink_clientSecret" (clientSecret s);
         SecretSet "tink_market" (market s);
         OnSuccess; Close]) /\
   (called_onSuccess (calls (onSubmit secret_set t getSecretsError s b))
      = true
    <->
    reports_error (fst (secret_set "tink_clientId" (clientId s) b)) = false /\
    reports_error
      (fst (secret_set "tink_clientSecret" (clientSecret s)
              (snd (secret_set "tink_clientId" (clientId s) b)))) = false /\
    reports_error
      (fst (secret_set "tink_market" (market s)
              (snd (secret_set "tink_clientSecret" (clientSecret s)
                      (snd (secret_set "tink_clientId" (clientId s) b))))))
      = false)) /\
  (forall (refused : list string) (store : gmap string string),
     clientId s <> "" -> clientSecret s <> "" -> market s <> "" ->
     existsb (String.eqb "tink_clientId") refused = false ->
     existsb (String.eqb "tink_clientSecret") refused = true ->
     backend (onSubmit (store_set refused) t getSecretsError s store)
       !! "tink_clientId" = Some (clientId s) /\
     called_onSuccess
       (calls (onSubmit (store_set refused) t getSecretsError s store))
       = false).
Proof.
  split; [apply onSubmit_missing_field|].
  split; [apply onSubmit_filled|].
  intros refused store. apply store_keeps_first_write.
Qed.

Lemma submit_writes_in_order_witness :
  writes (calls (onSubmit (store_set ["tink_clientSecret"]) untranslated
                   error_code (filled "id-123" "s3cret" "GB") ∅))
    = [SecretSet "tink_clientId" "id-123";
       SecretSet "tink_clientSecret" "s3cret"] /\
  backend (onSubmit (store_set ["tink_clientSecret"]) untranslated
             error_code (filled "id-123" "s3cret" "GB") ∅)
    !! "tink_clientId" = Some "id-123" /\
  calls (onSubmit (store_set []) untranslated error_code
           (filled "id-123" "" "GB") ∅) = [].
Proof.
  split; [|split].
  - rewrite (proj1 (proj1 (proj2 (submit_writes_in_order _
               (store_set ["tink_clientSecret"]) untranslated error_code
               (filled "id-123" "s3cret" "GB") ∅))
             ltac:(discriminate) ltac:(discriminate) ltac:(discriminate))).
    reflexivity.
  - apply (proj2 (proj2 (submit_writes_in_order _
             (store_set ["tink_clientSecret"]) untranslated error_code
             (filled "id-123" "s3cret" "GB") ∅)) ["tink_clientSecret"] ∅);
      solve [discriminate | reflexivity].
  - apply (proj1 (submit_writes_in_order _ (store_set []) untranslated
             error_code (filled "id-123" "" "GB") ∅)).
    right. left. reflexivity.
Defined.

End ModalFacts.

(** ** Further properties of the service and of the routes *)
Module ServerExtras.
Import SyncServer.

Lemma getTinkClient_run (p : Process) :
  getTinkClient p =
  (Returned match tinkClient p with
            | Some client => client
            | None => {| clientId := secrets p !! "tink_clientId";
                         clientSecret := secrets p !! "tink_clientSecret" |}
            end,
   match tinkClient p with
   | Some _ => p
   | None => {| secrets := secrets p;
                tinkClient :=
                  Some {| clientId := secrets p !! "tink_clientId";
                          clientSecret := secrets p !! "tink_clientSecret" |};
                console := console p;
                sent := sent p |}
   end).
Proof. destruct p as [store [client|] log out]; reflexivity. Qed.

Section Engine.

Variable capture_stack : string -> string.
Variable on_error : Request -> Error -> JS unit.

(** X1: The placeholder client is built once: the first call reads the two
    secrets and keeps the object in [tinkClient]; every later call returns
    that object, whatever the credential store holds by then. The store,
    the console and the response are not touched. *)
Theorem client_is_built_once (p : Process) :
  exists client p1,
    getTinkClient p = (Returned client, p1) /\
    tinkClient p1 = Some client /\
    secrets p1 = secrets p /\ console p1 = console p /\ sent p1 = sent p /\
    (tinkClient p = None ->
     client = {| clientId := secrets p !! "tink_clientId";
                 clientSecret := secrets p !! "tink_clientSecret" |}) /\
    (forall cached, tinkClient p = Some cached -> client = cached /\ p1 = p) /\
    (forall later : gmap string string,
        getTinkClient (with_secrets later p1)
        = (Returned client, with_secrets later p1)).
Proof.
  rewrite getTinkClient_run.
  destruct p as [store [cached|] log out]; simpl; eexists _, _;
    (split; [reflexivity|]); repeat split; congruence.
Qed.

(** X2: The [catch] block of the two fetches, whatever error it catches,
    writes one line to the console, its prefix followed by the error's
    message, and rethrows that very error, message and stack as caught; it
    lets a returned value through untouched. With the [try] blocks as they
    are, the error is the one built there: a failed fetch leaves the client
    built, the store as it was, one more line on the console and nothing
    sent. *)
Theorem failed_fetch_rethrows_what_it_caught
    (accountId startDate : value) (p : Process) :
  getAccounts (tinkService capture_stack)
    = try_catch
        (client <- getTinkClient;;
         throw (new_Error capture_stack
                  "Tink account fetching not yet implemented"))
        (FetchCatch.logged_rethrow "Error fetching Tink accounts: ") /\
  getTransactions (tinkService capture_stack) accountId startDate
    = try_catch
        (client <- getTinkClient;;
         throw (new_Error capture_stack
                  "Tink transaction fetching not yet implemented"))
        (FetchCatch.logged_rethrow "Error fetching Tink transactions: ") /\
  (forall (prefix : string) (attempt : JS value) (caught : Error)
          (p1 : Process),
      attempt p = (Thrown caught, p1) ->
      try_catch attempt (FetchCatch.logged_rethrow prefix) p
      = (Thrown caught,
         FetchCatch.logged (prefix ++ message caught) p1)) /\
  (forall (prefix : string) (attempt : JS value) (v : value) (p1 : Process),
      attempt p = (Returned v, p1) ->
      try_catch attempt (FetchCatch.logged_rethrow prefix) p
      = (Returned v, p1)) /\
  getAccounts (tinkService capture_stack) p
    = (Thrown (new_Error capture_stack
                 "Tink account fetching not yet implemented"),
       after_fetch
         "Error fetching Tink accounts: Tink account fetching not yet implemented"
         p) /\
  getTransactions (tinkService capture_stack) accountId startDate p
    = (Thrown (new_Error capture_stack
                 "Tink transaction fetching not yet implemented"),
       after_fetch
         "Error fetching Tink transactions: Tink transaction fetching not yet implemented"
         p).
Proof.
  split; [reflexivity|]. split; [reflexivity|].
  split; [|split; [|split]].
  - intros prefix attempt caught p1 H. unfold try_catch. now rewrite H.
  - intros prefix attempt v p1 H. unfold try_catch. now rewrite H.
  - apply ServerFacts.getAccounts_run.
  - apply ServerFacts.getTransactions_run.
Qed.

(** X3: [isConfigured] reads the store at every call and changes nothing, while
    the client keeps the credentials of its first use: once a fetch has
    built the client, replacing the store changes what [isConfigured]
    answers and not what [getTinkClient] returns. *)
Theorem configured_is_live_client_is_not
    (p : Process) (later : gmap string string) :
  tinkClient p = None ->
  snd (isConfigured (tinkService capture_stack) p) = p /\
  fst (isConfigured (tinkService capture_stack)
         (with_secrets later
            (snd (getAccounts (tinkService capture_stack) p))))
    = Returned (Js.truthy_opt (later !! "tink_clientId")
                && Js.truthy_opt (later !! "tink_clientSecret")) /\
  fst (getTinkClient
         (with_secrets later
            (snd (getAccounts (tinkService capture_stack) p))))
    = Returned {| clientId := secrets p !! "tink_clientId";
                  clientSecret := secrets p !! "tink_clientSecret" |}.
Proof.
  intros Hnone.
  rewrite !ServerFacts.isConfigured_run, ServerFacts.getAccounts_run,
    getTinkClient_run.
  simpl. now rewrite Hnone.
Qed.

Lemma handlers_run (r : route) (req : Request) (p : Process) :
  handlers capture_stack on_error r req p =
  match r with
  | Status =>
      res_send (configured_body
                  (Js.truthy_opt (secrets p !! "tink_clientId")
                   && Js.truthy_opt (secrets p !! "tink_clientSecret"))) p
  | Accounts =>
      res_send (error_body "Tink account fetching not yet implemented")
        (after_fetch
           "Error fetching Tink accounts: Tink account fetching not yet implemented"
           p)
  | Transactions =>
      res_send (error_body "Tink transaction fetching not yet implemented")
        (after_fetch
           "Error fetching Tink transactions: Tink transaction fetching not yet implemented"
           p)
  end.
Proof.
  destruct r; unfold handlers, routes.
  - unfold post_status, handleError, try_catch, bind.
    now rewrite ServerFacts.isConfigured_run.
  - now rewrite (ServerFacts.post_accounts_thrown _ _ _ _ _ _
                   (ServerFacts.getAccounts_run capture_stack p)).
  - now rewrite (ServerFacts.post_transactions_thrown _ _ _ _ _ _
                   (ServerFacts.getTransactions_run capture_stack _ _ p)).
Qed.

(** X4: Every route ends normally having sent exactly one body, whose [status]
    is ['ok'] also when it carries an error, and leaves the credential
    store as it was. POST /status writes nothing else; POST /accounts and
    POST /transactions add one line to the console and leave the client
    built. *)
Theorem every_route_answers_once (r : route) (req : Request) (p : Process) :
  exists body p',
    handlers capture_stack on_error r req p = (Returned tt, p') /\
    sent p' = (sent p ++ [body])%list /\
    prop body "status" = Str "ok" /\
    secrets p' = secrets p /\
    (r = Status -> tinkClient p' = tinkClient p /\ console p' = console p) /\
    (r <> Status ->
     is_Some (tinkClient p') /\
     length (console p') = S (length (console p))).
Proof.
  rewrite handlers_run.
  destruct r; eexists _, _; (split; [reflexivity|]); simpl;
    repeat split; try congruence; eauto;
    rewrite length_app; simpl; lia.
Qed.

(** X5: No route reads its request, and none reaches [handleError]'s recovery:
    two requests to the same route in the same state end alike, whatever
    the bodies and whatever the recovery would do. *)
Theorem routes_ignore_request_and_recovery
    (other : Request -> Error -> JS unit)
    (r : route) (req req' : Request) (p : Process) :
  handlers capture_stack on_error r req p = handlers capture_stack other r req' p.
Proof.
  unfold handlers, routes. destruct r.
  - unfold post_status, handleError, try_catch, bind.
    now rewrite ServerFacts.isConfigured_run.
  - now rewrite
      (ServerFacts.post_accounts_thrown on_error _ req _ _ _
         (ServerFacts.getAccounts_run capture_stack p)),
      (ServerFacts.post_accounts_thrown other _ req' _ _ _
         (ServerFacts.getAccounts_run capture_stack p)).
  - now rewrite
      (ServerFacts.post_transactions_thrown on_error _ req _ _ _
         (ServerFacts.getTransactions_run capture_stack _ _ p)),
      (ServerFacts.post_transactions_thrown other _ req' _ _ _
         (ServerFacts.getTransactions_run capture_stack _ _ p)).
Qed.

Section AnyService.

Variable service : TinkService.

Lemma post_accounts_returned (req : Request) (p p' : Process) (v : value) :
  getAccounts service p = (Returned v, p') ->
  post_accounts on_error service req p =
  res_send (Obj [("status", Str "ok"); ("data", Obj [("accounts", v)])]) p'.
Proof.
  intros H. unfold post_accounts, handleError, try_catch, bind. now rewrite H.
Qed.

Lemma post_transactions_returned (req : Request) (p p' : Process) (v : value) :
  getTransactions service
    (prop (or_value (body req) (Obj [])) "accountId")
    (prop (or_value (body req) (Obj [])) "startDate") p = (Returned v, p') ->
  post_transactions on_error service req p =
  res_send (Obj [("status", Str "ok"); ("data", v)]) p'.
Proof.
  intros H. unfold post_transactions, handleError, try_catch, bind.
  now rewrite H.
Qed.

(** X6: Over any service whose calls return or throw an [Error] object,
    POST /accounts and POST /transactions end normally with exactly one
    more body sent, of [status] ['ok'], whether the call returned or threw
    the [Error]: their own [catch] answers with its message. POST /status
    has no [try] of its own: when [isConfigured] throws, the route is what
    [handleError] makes of the exception. (A service that throws a value
    without properties, [null] or [undefined], is not a [TinkService]
    here.) *)
Theorem fetch_routes_catch_status_does_not (req : Request) (p : Process) :
  (exists answer,
      post_accounts on_error service req p
        = res_send answer (snd (getAccounts service p)) /\
      prop answer "status" = Str "ok") /\
  (exists answer,
      post_transactions on_error service req p
        = res_send answer
            (snd (getTransactions service
                    (prop (or_value (body req) (Obj [])) "accountId")
                    (prop (or_value (body req) (Obj [])) "startDate") p)) /\
      prop answer "status" = Str "ok") /\
  (forall e p',
      isConfigured service p = (Thrown e, p') ->
      post_status on_error service req p = on_error req e p') /\
  (forall configured p',
      isConfigured service p = (Returned configured, p') ->
      post_status on_error service req p
        = res_send (configured_body configured) p').
Proof.
  split; [|split; [|split]].
  - destruct (getAccounts service p) as [[v|e] p'] eqn:H; simpl.
    + eexists. split;
        [apply (post_accounts_returned _ _ _ _ H) | reflexivity].
    + eexists. split;
        [apply (ServerFacts.post_accounts_thrown _ _ _ _ _ _ H) | reflexivity].
  - destruct (getTransactions service _ _ p) as [[v|e] p'] eqn:H; simpl.
    + eexists. split;
        [apply (post_transactions_returned _ _ _ _ H) | reflexivity].
    + eexists. split;
        [apply (ServerFacts.post_transactions_thrown _ _ _ _ _ _ H)
        | reflexivity].
  - intros e p' H. unfold post_status, handleError, try_catch, bind.
    now rewrite H.
  - intros b p' H. unfold post_status, handleError, try_catch, bind.
    now rewrite H.
Qed.

Lemma prop_non_object (v : value) (name : string) :
  (forall fields, v <> Obj fields) ->
  prop (or_value v (Obj [])) name = Undefined.
Proof.
  intros H. unfold or_value.
  destruct v; try (destruct (truthy _); reflexivity).
  now destruct (H fields).
Qed.

(** X7: POST /transactions takes from the request the [accountId] and
    [startDate] fields of an object body and nothing else; a body that is
    no object, a missing one included, counts as the empty object, so the
    service is called with both arguments undefined. *)
Theorem transactions_reads_two_fields (req : Request) (p : Process) :
  (forall fields,
      body req = Obj fields ->
      post_transactions on_error service req p
      = post_transactions on_error service
          {| body := Obj [("accountId", lookup_field "accountId" fields);
                          ("startDate", lookup_field "startDate" fields)] |}
          p) /\
  ((forall fields, body req <> Obj fields) ->
   post_transactions on_error service req p
   = match getTransactions service Undefined Undefined p with
     | (Returned v, p') =>
         res_send (Obj [("status", Str "ok"); ("data", v)]) p'
     | (Thrown e, p') => res_send (error_body (message e)) p'
     end).
Proof.
  split.
  - intros fields Hbody.
    unfold post_transactions, handleError, try_catch, bind.
    rewrite Hbody. simpl.
    destruct (getTransactions service _ _ p) as [[v|e] p']; reflexivity.
  - intros Hno.
    unfold post_transactions, handleError, try_catch, bind.
    cbv zeta. rewrite !(prop_non_object _ _ Hno).
    destruct (getTransactions service _ _ p) as [[v|e] p']; reflexivity.
Qed.

End AnyService.

End Engine.

Lemma fetch_routes_catch_status_does_not_witness :
  post_status ServiceDouble.report
    (ServiceDouble.broken {| message := "store offline"; stack := "" |})
    {| body := Obj [] |} (boot ∅)
  = ServiceDouble.report {| body := Obj [] |}
      {| message := "store offline"; stack := "" |} (boot ∅) /\
  post_status ServiceDouble.report (ServiceDouble.canned (Arr []))
    {| body := Obj [] |} (boot ∅)
  = res_send (configured_body true) (boot ∅).
Proof.
  split.
  - exact (proj1 (proj2 (proj2 (fetch_routes_catch_status_does_not
             ServiceDouble.report
             (ServiceDouble.broken {| message := "store offline"; stack := "" |})
             {| body := Obj [] |} (boot ∅)))) _ _ eq_refl).
  - exact (proj2 (proj2 (proj2 (fetch_routes_catch_status_does_not
             ServiceDouble.report (ServiceDouble.canned (Arr []))
             {| body := Obj [] |} (boot ∅)))) _ _ eq_refl).
Defined.

Lemma transactions_reads_two_fields_witness :
  response
    (post_transactions ServiceDouble.report (ServiceDouble.canned (Arr []))
       {| body := Obj [("startDate", Str "2024-01-01"); ("limit", Num 5);
                       ("accountId", Str "acc-1")] |})
    (boot ∅)
  = [Obj [("status", Str "ok");
          ("data", Obj [("accountId", Str "acc-1");
                        ("startDate", Str "2024-01-01")])]] /\
  response
    (post_transactions ServiceDouble.report (ServiceDouble.canned (Arr []))
       {| body := Undefined |})
    (boot ∅)
  = [Obj [("status", Str "ok");
          ("data", Obj [("accountId", Undefined);
                        ("startDate", Undefined)])]].
Proof.
  split.
  - unfold response.
    rewrite (proj1 (transactions_reads_two_fields ServiceDouble.report
                      (ServiceDouble.canned (Arr []))
                      {| body := Obj [("startDate", Str "2024-01-01");
                                      ("limit", Num 5);
                                      ("accountId", Str "acc-1")] |}
                      (boot ∅))
               _ eq_refl).
    reflexivity.
  - unfold response.
    rewrite (proj2 (transactions_reads_two_fields ServiceDouble.report
                      (ServiceDouble.canned (Arr []))
                      {| body := Undefined |} (boot ∅))
               ltac:(discriminate)).
    reflexivity.
Defined.

Lemma failed_fetch_rethrows_what_it_caught_witness :
  try_catch
    (throw {| message := "bank offline"; stack := "at bank.js:7" |})
    (FetchCatch.logged_rethrow "Error fetching Tink accounts: ")
    (boot full_store)
  = (@Thrown value {| message := "bank offline"; stack := "at bank.js:7" |},
     FetchCatch.logged "Error fetching Tink accounts: bank offline"
       (boot full_store)).
Proof.
  exact (proj1 (proj2 (proj2 (failed_fetch_rethrows_what_it_caught
                                no_stack Null Null (boot full_store))))
           "Error fetching Tink accounts: "
           (throw {| message := "bank offline"; stack := "at bank.js:7" |})
           {| message := "bank offline"; stack := "at bank.js:7" |}
           (boot full_store) eq_refl).
Defined.

Lemma client_is_built_once_witness :
  fst (getTinkClient (boot full_store))
  = Returned {| clientId := Some "id-123"; clientSecret := Some "s3cret" |}.
Proof.
  destruct (client_is_built_once (boot full_store))
    as (client & p1 & Hrun & _ & _ & _ & _ & Hfresh & _).
  rewrite Hrun. cbn [fst]. f_equal. exact (Hfresh eq_refl).
Defined.

Lemma every_route_answers_once_witness :
  (console (snd (handlers no_stack swallow Status {| body := Null |}
                   (boot full_store))) = @nil string) /\
  (length (console (snd (handlers no_stack swallow Accounts
                           {| body := Null |} (boot full_store))))
   = 1%nat).
Proof.
  split.
  - destruct (every_route_answers_once no_stack swallow Status
                {| body := Null |} (boot full_store))
      as (answer & p' & Hrun & _ & _ & _ & Hstatus & _).
    rewrite Hrun. exact (proj2 (Hstatus eq_refl)).
  - destruct (every_route_answers_once no_stack swallow Accounts
                {| body := Null |} (boot full_store))
      as (answer & p' & Hrun & _ & _ & _ & _ & Hfetch).
    rewrite Hrun. exact (proj2 (Hfetch ltac:(discriminate))).
Defined.

Lemma configured_is_live_client_is_not_witness :
  fst (isConfigured (tinkService no_stack)
         (with_secrets ∅
            (snd (getAccounts (tinkService no_stack) (boot full_store)))))
    = Returned false /\
  fst (getTinkClient
         (with_secrets ∅
            (snd (getAccounts (tinkService no_stack) (boot full_store)))))
    = Returned {| clientId := Some "id-123"; clientSecret := Some "s3cret" |}.
Proof.
  exact (proj2 (configured_is_live_client_is_not no_stack (boot full_store) ∅
                  eq_refl)).
Defined.

End ServerExtras.

(** ** Further properties of the modal *)
Module ModalExtras.
Import InitModal ModalView.

Definition required_text : string :=
  "It is required to provide the client ID, client secret, and market.".

Lemma guard_fires (s : ModalState) :
  negb (Js.truthy_string (clientId s))
  || negb (Js.truthy_string (clientSecret s))
  || negb (Js.truthy_string (market s)) = true ->
  clientId s = "" \/ clientSecret s = "" \/ market s = "".
Proof.
  destruct (clientId s), (clientSecret s), (market s); simpl; auto;
    discriminate.
Qed.

Lemma guard_holds (s : ModalState) :
  negb (Js.truthy_string (clientId s))
  || negb (Js.truthy_string (clientSecret s))
  || negb (Js.truthy_string (market s)) = false ->
  clientId s <> "" /\ clientSecret s <> "" /\ market s <> "".
Proof.
  destruct (clientId s), (clientSecret s), (market s); simpl;
    try discriminate; intros _; repeat split; discriminate.
Qed.

Section Submit.

Variable B : Type.
Variable secret_set : string -> string -> B -> option SecretSetReply * B.
Variable t : string -> string.
Variable getSecretsError : option string -> option string -> string.

(** Splits a run of [onSubmit] into its five ends. *)
Ltac submit_ends s b :=
  unfold onSubmit;
  destruct (negb (Js.truthy_string (clientId s))
            || negb (Js.truthy_string (clientSecret s))
            || negb (Js.truthy_string (market s))) eqn:Hguard;
  [ | destruct (secret_set "tink_clientId" (clientId s) b) as [r1 b1];
      destruct (reports_error r1) eqn:E1;
      [ | destruct (secret_set "tink_clientSecret" (clientSecret s) b1)
            as [r2 b2];
          destruct (reports_error r2) eqn:E2;
          [ | destruct (secret_set "tink_market" (market s) b2) as [r3 b3];
              destruct (reports_error r3) eqn:E3 ] ] ].

(** X11: No submit writes an empty secret or a secret under another name: each
    write is one of the three names with the non-empty text of its
    field. *)
Theorem only_filled_secrets_are_written (s : ModalState) (b : B) :
  Forall (fun c =>
            match c with
            | SecretSet name value =>
                value <> "" /\
                (name = "tink_clientId" /\ value = clientId s \/
                 name = "tink_clientSecret" /\ value = clientSecret s \/
                 name = "tink_market" /\ value = market s)
            | _ => True
            end)
         (calls (onSubmit secret_set t getSecretsError s b)).
Proof.
  submit_ends s b; cbn;
    try (apply guard_holds in Hguard; destruct Hguard as (H1 & H2 & H3));
    repeat match goal with |- Forall _ _ => constructor end;
    try exact I; (split; [assumption | tauto]).
Qed.

End Submit.

Lemma onSubmit_accepting
    (t : string -> string)
    (getSecretsError : option string -> option string -> string)
    (s : ModalState) (store : gmap string string) :
  clientId s <> "" -> clientSecret s <> "" -> market s <> "" ->
  onSubmit (store_set []) t getSecretsError s store =
  {| state := setIsLoading false (setIsValid true (setIsLoading true s));
     backend :=
       <["tink_market" := market s]>
         (<["tink_clientSecret" := clientSecret s]>
            (<["tink_clientId" := clientId s]> store));
     calls := [SecretSet "tink_clientId" (clientId s);
               SecretSet "tink_clientSecret" (clientSecret s);
               SecretSet "tink_market" (market s);
               OnSuccess; Close] |}.
Proof.
  intros H1 H2 H3. unfold onSubmit.
  now rewrite (ModalFacts.guard_passes s H1 H2 H3).
Qed.

(** X12: Saving into a store that accepts every write: afterwards the store
    returns the three fields under their three names and every other secret
    as before, [onSuccess] has been called, and a server started on that
    store answers POST /status with [configured: true]. *)
Theorem saved_credentials_configure_server
    (capture_stack : string -> string)
    (on_error : SyncServer.Request -> SyncServer.Error -> SyncServer.JS unit)
    (t : string -> string)
    (getSecretsError : option string -> option string -> string)
    (req : SyncServer.Request)
    (s : ModalState) (store : gmap string string) :
  clientId s <> "" -> clientSecret s <> "" -> market s <> "" ->
  backend (onSubmit (store_set []) t getSecretsError s store)
    !! "tink_clientId" = Some (clientId s) /\
  backend (onSubmit (store_set []) t getSecretsError s store)
    !! "tink_clientSecret" = Some (clientSecret s) /\
  backend (onSubmit (store_set []) t getSecretsError s store)
    !! "tink_market" = Some (market s) /\
  (forall other,
      other <> "tink_clientId" -> other <> "tink_clientSecret" ->
      other <> "tink_market" ->
      backend (onSubmit (store_set []) t getSecretsError s store) !! other
      = store !! other) /\
  called_onSuccess (calls (onSubmit (store_set []) t getSecretsError s store))
    = true /\
  SyncServer.response
    (SyncServer.handlers capture_stack on_error SyncServer.Status req)
    (SyncServer.boot
       (backend (onSubmit (store_set []) t getSecretsError s store)))
  = [SyncServer.configured_body true].
Proof.
  intros H1 H2 H3. rewrite (onSubmit_accepting _ _ _ _ H1 H2 H3).
  cbn [backend calls].
  split; [|split; [|split; [|split; [|split]]]].
  - rewrite !lookup_insert_ne by discriminate. apply lookup_insert_eq.
  - rewrite lookup_insert_ne by discriminate. apply lookup_insert_eq.
  - apply lookup_insert_eq.
  - intros other N1 N2 N3. now rewrite !lookup_insert_ne by congruence.
  - reflexivity.
  - rewrite ServerFacts.post_status_response. cbn [SyncServer.boot
      SyncServer.secrets SyncServer.sent app].
    rewrite (lookup_insert_ne _ "tink_market" "tink_clientSecret")
      by discriminate.
    rewrite !(lookup_insert_ne _ _ "tink_clientId") by discriminate.
    rewrite !lookup_insert_eq. cbn [Js.truthy_opt].
    apply NormalizerFacts.truthy_string_true in H1, H2.
    now rewrite H1, H2.
Qed.

Lemma saved_credentials_configure_server_witness :
  backend (onSubmit (store_set []) untranslated error_code
             (filled "id-123" "s3cret" "GB") ∅)
    !! "tink_market" = Some "GB" /\
  SyncServer.response
    (SyncServer.handlers SyncServer.no_stack SyncServer.swallow
       SyncServer.Status {| SyncServer.body := SyncServer.Obj [] |})
    (SyncServer.boot
       (backend (onSubmit (store_set []) untranslated error_code
                   (filled "id-123" "s3cret" "GB") ∅)))
  = [SyncServer.configured_body true].
Proof.
  pose proof (saved_credentials_configure_server
                SyncServer.no_stack SyncServer.swallow untranslated error_code
                {| SyncServer.body := SyncServer.Obj [] |}
                (filled "id-123" "s3cret" "GB") ∅
                ltac:(discriminate) ltac:(discriminate) ltac:(discriminate))
    as (_ & _ & Hmarket & _ & _ & Hstatus).
  exact (conj Hmarket Hstatus).
Defined.

(** X13: Fixing the form: a submit stopped for an empty market shows the
    "required" sentence; typing a market hides the banner and touches no
    other field; the next submit, into a store that accepts every write,
    writes the three secrets with the typed market and calls [onSuccess]
    and [close]. *)
Theorem typing_market_then_submit_saves
    (t : string -> string)
    (getSecretsError : option string -> option string -> string)
    (s : ModalState) (store : gmap string string) (typed : string) :
  clientId s <> "" -> clientSecret s <> "" -> market s = "" -> typed <> "" ->
  shown_error (state (onSubmit (store_set []) t getSecretsError s store))
    = Some (t required_text) /\
  shown_error
    (onChangeMarket typed
       (state (onSubmit (store_set []) t getSecretsError s store))) = None /\
  calls (onSubmit (store_set []) t getSecretsError
           (onChangeMarket typed
              (state (onSubmit (store_set []) t getSecretsError s store)))
           store)
  = [SecretSet "tink_clientId" (clientId s);
     SecretSet "tink_clientSecret" (clientSecret s);
     SecretSet "tink_market" typed;
     OnSuccess; Close].
Proof.
  intros H1 H2 H3 H4.
  assert (Hfirst : onSubmit (store_set []) t getSecretsError s store
                   = {| state := setError (t required_text) (setIsValid false s);
                        backend := store; calls := [] |}).
  { unfold onSubmit. rewrite H3. cbn [Js.truthy_string negb].
    now rewrite !orb_true_r. }
  rewrite Hfirst. cbn [state].
  split; [reflexivity|]. split; [reflexivity|].
  now rewrite onSubmit_accepting.
Qed.

Lemma typing_market_then_submit_saves_witness :
  calls (onSubmit (store_set []) untranslated error_code
           (onChangeMarket "GB"
              (state (onSubmit (store_set []) untranslated error_code
                        (filled "id-123" "s3cret" "") ∅)))
           ∅)
  = [SecretSet "tink_clientId" "id-123";
     SecretSet "tink_clientSecret" "s3cret";
     SecretSet "tink_market" "GB";
     OnSuccess; Close].
Proof.
  exact (proj2 (proj2 (typing_market_then_submit_saves untranslated error_code
                         (filled "id-123" "s3cret" "") ∅ "GB"
                         ltac:(discriminate) ltac:(discriminate)
                         eq_refl ltac:(discriminate)))).
Defined.

End ModalExtras.

(** ** Properties of the status hook *)
Module HookExtras.
Import SyncServer StatusHook.

Section Effect.

Variable B : Type.
Variable send_status : B -> option value * B.

(** X14: The hook asks the server only while the sync server is online: for any
    other status the effect sends nothing and leaves the hook as it was, so
    a hook that was never online still holds [null], not [false]; when
    online it sends exactly one request. *)
Theorem status_asked_only_when_online
    (status : string) (h : HookState) (b : B) :
  (status <> "online" ->
   effect send_status status h b
   = {| hook := h; backend := b; requests := 0; rejected := false |}) /\
  (status <> "online" ->
   configuredTrueLayer (hook (effect send_status status initial b)) = Null) /\
  (status = "online" ->
   requests (effect send_status status h b) = 1%nat /\
   backend (effect send_status status h b) = snd (send_status b)).
Proof.
  unfold effect. destruct (String.eqb_spec status "online") as [->|Hne].
  - repeat split; try congruence;
      destruct (send_status b) as [reply b1];
      destruct (reply ≫= _); reflexivity.
  - repeat split; congruence.
Qed.

(** X15: Online, with a reply that is neither [undefined] nor [null], the
    effect ends with the loading flag off and stores [true] or [false] when
    the reply's [configured] is that boolean, and [false] when the field is
    missing or otherwise falsy. *)
Theorem reply_sets_flag_and_ends_loading
    (h : HookState) (b b1 : B) (results : value) :
  send_status b = (Some results, b1) ->
  results <> Undefined -> results <> Null ->
  isLoading (hook (effect send_status "online" h b)) = false /\
  rejected (effect send_status "online" h b) = false /\
  (forall flag,
      prop results "configured" = Bool flag ->
      configuredTrueLayer (hook (effect send_status "online" h b))
      = Bool flag) /\
  (truthy (prop results "configured") = false ->
   configuredTrueLayer (hook (effect send_status "online" h b))
   = Bool false).
Proof.
  intros Hsend Hu Hn. unfold effect. cbn [String.eqb Ascii.eqb Bool.eqb].
  rewrite Hsend. cbn [mbind option_bind].
  destruct results; try contradiction; cbn [read_prop hook isLoading rejected
    configuredTrueLayer]; unfold or_value;
    (split; [reflexivity|]); (split; [reflexivity|]); split;
    try (intros flag ->; now destruct flag);
    try (intros ->; reflexivity).
Qed.

(** X16: Online, when the request fails or its reply is [undefined] or [null]
    (reading [results.configured] then throws), the promise of [fetch()] is
    rejected, the flag keeps its old value and the loading flag, set before
    the request, is never reset. *)
Theorem lost_reply_leaves_loading
    (h : HookState) (b b1 : B) (reply : option value) :
  send_status b = (reply, b1) ->
  reply = None \/ reply = Some Undefined \/ reply = Some Null ->
  rejected (effect send_status "online" h b) = true /\
  isLoading (hook (effect send_status "online" h b)) = true /\
  configuredTrueLayer (hook (effect send_status "online" h b))
  = configuredTrueLayer h.
Proof.
  intros Hsend Hlost. unfold effect. cbn [String.eqb Ascii.eqb Bool.eqb].
  rewrite Hsend. destruct Hlost as [-> | [-> | ->]]; repeat split.
Qed.

End Effect.

Lemma status_asked_only_when_online_witness :
  effect (answers true) "offline" initial tt
  = {| hook := initial; backend := tt; requests := 0; rejected := false |} /\
  requests (effect (answers true) "online" initial tt) = 1%nat.
Proof.
  split.
  - apply (proj1 (status_asked_only_when_online unit (answers true)
                    "offline" initial tt)).
    discriminate.
  - apply (proj2 (proj2 (status_asked_only_when_online unit (answers true)
                           "online" initial tt))).
    reflexivity.
Defined.

Lemma reply_sets_flag_and_ends_loading_witness :
  configuredTrueLayer (hook (effect (answers true) "online" initial tt))
    = Bool true /\
  configuredTrueLayer
    (hook (effect refuses "online" initial tt))
    = Bool false.
Proof.
  split.
  - apply (proj1 (proj2 (proj2 (reply_sets_flag_and_ends_loading unit
             (answers true) initial tt tt (Obj [("configured", Bool true)])
             eq_refl ltac:(discriminate) ltac:(discriminate))))).
    reflexivity.
  - apply (proj2 (proj2 (proj2 (reply_sets_flag_and_ends_loading unit
             refuses initial tt tt (Obj [("error", Str "unauthorized")])
             eq_refl ltac:(discriminate) ltac:(discriminate))))).
    reflexivity.
Defined.

Lemma lost_reply_leaves_loading_witness :
  rejected (effect silent "online" initial tt) = true /\
  isLoading (hook (effect silent "online" initial tt)) = true /\
  configuredTrueLayer (hook (effect silent "online" initial tt)) = Null.
Proof.
  exact (lost_reply_leaves_loading unit silent initial tt tt (Some Undefined)
           eq_refl (or_intror (or_introl eq_refl))).
Defined.

End HookExtras.

(** ** Further properties of the normalizer *)
Module NormalizerExtras.
Import Normalizer.

Lemma split_without_separator sep s :
  Js.occurs sep s = false -> Js.split sep s = [s].
Proof.
  induction s as [|c rest IH]; simpl; [reflexivity|].
  destruct (Ascii.eqb c sep); simpl; [discriminate|].
  intros H. now rewrite (IH H).
Qed.

(** X17: The normalizer does not check that the timestamp has a time part: the
    date is the whole timestamp, unchanged, exactly when the timestamp
    holds no 'T' (a date alone, a lower-case 't', or no date at all). *)
Theorem date_is_whole_timestamp_iff_no_T
    (host : Ambient) (tl : TrueLayerTransaction) :
  date (normalizeTrueLayerTransaction host tl) = Some (timestamp tl)
  <-> Js.occurs "T" (timestamp tl) = false.
Proof.
  simpl. split.
  - intros H. now destruct (NormalizerFacts.split_first_prefix _ _ _ H).
  - intros H. now rewrite (split_without_separator _ _ H).
Qed.

(** X18: The payee name is empty exactly when the description is empty and the
    merchant name is missing or empty; with a description, a payee name is
    always there. *)
Theorem payee_empty_iff_nothing_to_show
    (host : Ambient) (tl : TrueLayerTransaction) :
  payeeName (normalizeTrueLayerTransaction host tl) = ""
  <-> description tl = "" /\
      (merchant_name tl = None \/ merchant_name tl = Some "").
Proof.
  simpl. unfold Js.or_else.
  destruct (merchant_name tl) as [[|c m]|]; simpl; split.
  - intros ->. auto.
  - now intros [-> _].
  - discriminate.
  - intros [_ [H|H]]; discriminate.
  - intros ->. auto.
  - now intros [-> _].
Qed.

End NormalizerExtras.

(** ** The normalizer reads nothing but its argument *)
Module NormalizerSourceFacts.
Import SyncServer Normalizer NormalizerSource.

(** An expression without the three constructs has the same value, or
    throws alike, in any two processes. *)
Lemma ambient_free_eval (h1 h2 : Ambient) (param : value) :
  forall e, reads_ambient e = false -> eval h1 param e = eval h2 param e.
Proof.
  fix IH 1.
  intros [ | v | e name | e sep | e i | a b | e lit | c a b | fields | | | ];
    cbn [reads_ambient eval]; intros H; try reflexivity; try discriminate.
  - now rewrite (IH e H).
  - now rewrite (IH e H).
  - now rewrite (IH e H).
  - apply orb_false_elim in H as [Ha Hb]. now rewrite (IH a Ha), (IH b Hb).
  - now rewrite (IH e H).
  - apply orb_false_elim in H as [H Hb]. apply orb_false_elim in H as [Hc Ha].
    now rewrite (IH c Hc), (IH a Ha), (IH b Hb).
  - f_equal. induction fields as [|[k e'] rest IHf]; [reflexivity|].
    apply orb_false_elim in H as [He Hrest].
    now rewrite (IH e' He), (IHf Hrest).
Qed.

(** With them it need not: the timezone offset differs between UTC and
    Auckland. *)
Example timezone_is_visible :
  eval utc Undefined TimezoneOffset = Some (Num 0%float) /\
  eval auckland Undefined TimezoneOffset = Some (Num (-780)%float).
Proof. split; reflexivity. Qed.

Lemma first_as_value (pieces : list string) :
  nth 0 (map Str pieces) Undefined
  = match Js.first pieces with Some d => Str d | None => Undefined end.
Proof. now destruct pieces. Qed.

(** On a well-typed transaction the body evaluates to the object that
    [Normalizer.normalizeTrueLayerTransaction] builds. *)
Lemma body_is_normalizer (host : Ambient) (tl : TrueLayerTransaction) :
  eval host (transaction_value tl) body
  = Some (result_value (normalizeTrueLayerTransaction host tl)).
Proof.
  destruct tl as [id ts d a c ty cat m rb].
  unfold transaction_value, body, result_value, normalizeTrueLayerTransaction.
  destruct m as [[|c0 m]|], rb as [[ra rc]|];
    cbn -[Js.split Js.first nth map]; rewrite first_as_value; reflexivity.
Qed.

(** C9: the body of the normalizer holds no read of the clock, of the
    random generator or of the timezone, so two calls on the same argument,
    whatever the process is at either call, end alike: for any JavaScript
    value both return the same object or both throw, and for a transaction
    both return the object the normalizer builds, field for field the
    same. *)
Theorem normalizer_reads_only_its_argument
    (first_call second_call : Ambient)
    (input : value) (tl : TrueLayerTransaction) :
  reads_ambient body = false /\
  eval first_call input body = eval second_call input body /\
  eval first_call (transaction_value tl) body
    = Some (result_value (normalizeTrueLayerTransaction first_call tl)) /\
  eval second_call (transaction_value tl) body
    = Some (result_value (normalizeTrueLayerTransaction first_call tl)).
Proof.
  split; [reflexivity|].
  split; [now apply ambient_free_eval|].
  split; [apply body_is_normalizer|].
  rewrite <- (ambient_free_eval first_call second_call _ body eq_refl).
  apply body_is_normalizer.
Qed.

End NormalizerSourceFacts.

(** ** The modal when a request can fail *)
Module AsyncModalExtras.
Import InitModal ModalView SubmitAsync.

(** When every request is answered the routine is [InitModal.onSubmit]. *)
Lemma answered_is_onSubmit
    (B : Type)
    (secret_set : string -> string -> B -> option SecretSetReply * B)
    (t : string -> string)
    (getSecretsError : option string -> option string -> string)
    (s : ModalState) (b : B) :
  onSubmit (answered secret_set) t getSecretsError s b
  = {| ended := InitModal.onSubmit secret_set t getSecretsError s b;
       rejected := false |}.
Proof.
  unfold onSubmit, InitModal.onSubmit, answered.
  destruct (negb (Js.truthy_string (clientId s))
            || negb (Js.truthy_string (clientSecret s))
            || negb (Js.truthy_string (market s))); [reflexivity|].
  destruct (secret_set "tink_clientId" (clientId s) b) as [r1 b1].
  cbn [fst snd]. destruct (reports_error r1); [reflexivity|].
  destruct (secret_set "tink_clientSecret" (clientSecret s) b1) as [r2 b2].
  cbn [fst snd]. destruct (reports_error r2); [reflexivity|].
  destruct (secret_set "tink_market" (market s) b2) as [r3 b3].
  cbn [fst snd]. destruct (reports_error r3); reflexivity.
Qed.

Section Submit.

Variable B : Type.
Variable send_secret : string -> string -> B -> settled * B.
Variable t : string -> string.
Variable getSecretsError : option string -> option string -> string.

(** Splits a run into its eight ends. *)
Ltac async_ends s b :=
  unfold onSubmit;
  destruct (negb (Js.truthy_string (clientId s))
            || negb (Js.truthy_string (clientSecret s))
            || negb (Js.truthy_string (market s))) eqn:Hguard;
  [ | destruct (send_secret "tink_clientId" (clientId s) b) as [[r1|] b1];
      [ destruct (reports_error r1) eqn:E1;
        [ | destruct (send_secret "tink_clientSecret" (clientSecret s) b1)
              as [[r2|] b2];
            [ destruct (reports_error r2) eqn:E2;
              [ | destruct (send_secret "tink_market" (market s) b2)
                    as [[r3|] b3];
                  [ destruct (reports_error r3) eqn:E3 | ] ]
            | ] ]
      | ] ].

(** X8: After a submit whose promise is not rejected the form is marked
    valid exactly when [onSuccess] was called, so the banner shows exactly
    when it was not. When a request is rejected [onSuccess] is not called
    and the routine never reaches its [setIsValid] or [setError]: the
    banner is as it was before the submit. Either way the calls are the
    writes alone, or the writes followed by [onSuccess] and [close]. *)
Theorem banner_follows_outcome_unless_rejected (s : ModalState) (b : B) :
  (rejected (onSubmit send_secret t getSecretsError s b) = false ->
   isValid (state (ended (onSubmit send_secret t getSecretsError s b)))
     = called_onSuccess
         (calls (ended (onSubmit send_secret t getSecretsError s b))) /\
   (shown_error (state (ended (onSubmit send_secret t getSecretsError s b)))
      = None
    <-> called_onSuccess
          (calls (ended (onSubmit send_secret t getSecretsError s b)))
        = true)) /\
  (rejected (onSubmit send_secret t getSecretsError s b) = true ->
   called_onSuccess
     (calls (ended (onSubmit send_secret t getSecretsError s b))) = false /\
   isValid (state (ended (onSubmit send_secret t getSecretsError s b)))
     = isValid s /\
   errorText (state (ended (onSubmit send_secret t getSecretsError s b)))
     = errorText s /\
   shown_error (state (ended (onSubmit send_secret t getSecretsError s b)))
     = shown_error s) /\
  (calls (ended (onSubmit send_secret t getSecretsError s b))
     = writes (calls (ended (onSubmit send_secret t getSecretsError s b)))
   \/ calls (ended (onSubmit send_secret t getSecretsError s b))
     = (writes (calls (ended (onSubmit send_secret t getSecretsError s b)))
        ++ [OnSuccess; Close])%list).
Proof.
  async_ends s b; cbn; repeat split; auto; discriminate.
Qed.

(** X9: A submit never edits the three fields. Past the empty-field check
    it ends with the loading flag off when its promise is not rejected,
    saved or not, and with the flag still on when a request is rejected;
    stopped by the check, it leaves the flag as it found it. *)
Theorem loading_ends_unless_rejected (s : ModalState) (b : B) :
  clientId (state (ended (onSubmit send_secret t getSecretsError s b)))
    = clientId s /\
  clientSecret (state (ended (onSubmit send_secret t getSecretsError s b)))
    = clientSecret s /\
  market (state (ended (onSubmit send_secret t getSecretsError s b)))
    = market s /\
  (clientId s <> "" /\ clientSecret s <> "" /\ market s <> "" ->
   isLoading (state (ended (onSubmit send_secret t getSecretsError s b)))
     = rejected (onSubmit send_secret t getSecretsError s b)) /\
  (clientId s = "" \/ clientSecret s = "" \/ market s = "" ->
   isLoading (state (ended (onSubmit send_secret t getSecretsError s b)))
     = isLoading s /\
   rejected (onSubmit send_secret t getSecretsError s b) = false).
Proof.
  split; [|split; [|split; [|split]]].
  - async_ends s b; reflexivity.
  - async_ends s b; reflexivity.
  - async_ends s b; reflexivity.
  - intros (H1 & H2 & H3). async_ends s b; try reflexivity.
    now rewrite (ModalFacts.guard_passes s H1 H2 H3) in Hguard.
  - intros H. async_ends s b; try (split; reflexivity);
      apply ModalExtras.guard_holds in Hguard; tauto.
Qed.

(** X10: The banner after a submit: the translated "required" sentence
    when a field is empty; otherwise, going through the three requests in
    order, the banner as it was before the submit if a request is rejected,
    what [getSecretsError] makes of the [error] and [reason] of a reply
    that reports an error, and none when all three are answered without
    one. *)
Theorem banner_text_by_first_failure (s : ModalState) (b : B) :
  (clientId s = "" \/ clientSecret s = "" \/ market s = "" ->
   shown_error (state (ended (onSubmit send_secret t getSecretsError s b)))
     = Some (t ModalExtras.required_text)) /\
  (clientId s <> "" /\ clientSecret s <> "" /\ market s <> "" ->
   forall q1 b1 q2 b2 q3 b3,
     send_secret "tink_clientId" (clientId s) b = (q1, b1) ->
     send_secret "tink_clientSecret" (clientSecret s) b1 = (q2, b2) ->
     send_secret "tink_market" (market s) b2 = (q3, b3) ->
     shown_error (state (ended (onSubmit send_secret t getSecretsError s b)))
     = match q1 with
       | Rejected => shown_error s
       | Resolved r1 =>
       if reports_error r1
       then Some (getSecretsError (error (or_empty r1)) (reason (or_empty r1)))
       else
       match q2 with
       | Rejected => shown_error s
       | Resolved r2 =>
       if reports_error r2
       then Some (getSecretsError (error (or_empty r2)) (reason (or_empty r2)))
       else
       match q3 with
       | Rejected => shown_error s
       | Resolved r3 =>
       if reports_error r3
       then Some (getSecretsError (error (or_empty r3)) (reason (or_empty r3)))
       else None
       end end end).
Proof.
  split.
  - intros H. unfold onSubmit.
    destruct (negb (Js.truthy_string (clientId s))
              || negb (Js.truthy_string (clientSecret s))
              || negb (Js.truthy_string (market s))) eqn:Hguard.
    + reflexivity.
    + apply ModalExtras.guard_holds in Hguard. tauto.
  - intros (H1 & H2 & H3) q1 b1 q2 b2 q3 b3 S1 S2 S3.
    unfold onSubmit. rewrite (ModalFacts.guard_passes s H1 H2 H3), S1.
    destruct q1 as [r1|]; [|reflexivity].
    destruct (reports_error r1); [reflexivity|]. rewrite S2.
    destruct q2 as [r2|]; [|reflexivity].
    destruct (reports_error r2); [reflexivity|]. rewrite S3.
    destruct q3 as [r3|]; [|reflexivity].
    destruct (reports_error r3); reflexivity.
Qed.

End Submit.

Lemma banner_follows_outcome_unless_rejected_witness :
  shown_error
    (state (ended (onSubmit (flaky ["tink_clientSecret"]) untranslated
                     error_code (filled "id-123" "s3cret" "GB") ∅)))
    = None /\
  called_onSuccess
    (calls (ended (onSubmit (flaky ["tink_clientSecret"]) untranslated
                     error_code (filled "id-123" "s3cret" "GB") ∅)))
    = false.
Proof.
  pose proof (proj1 (proj2 (banner_follows_outcome_unless_rejected _
                              (flaky ["tink_clientSecret"]) untranslated
                              error_code (filled "id-123" "s3cret" "GB") ∅))
                eq_refl) as (Hcalled & _ & _ & Hbanner).
  exact (conj Hbanner Hcalled).
Defined.

Lemma loading_ends_unless_rejected_witness :
  isLoading
    (state (ended (onSubmit (flaky ["tink_market"]) untranslated error_code
                     (filled "id-123" "s3cret" "GB") ∅)))
    = true /\
  isLoading
    (state (ended (onSubmit (answered (store_set ["tink_market"]))
                     untranslated error_code
                     (filled "id-123" "s3cret" "GB") ∅)))
    = false.
Proof.
  assert (G : clientId (filled "id-123" "s3cret" "GB") <> "" /\
              clientSecret (filled "id-123" "s3cret" "GB") <> "" /\
              market (filled "id-123" "s3cret" "GB") <> "")
    by (repeat split; discriminate).
  split.
  - exact (proj1 (proj2 (proj2 (proj2
             (loading_ends_unless_rejected _ (flaky ["tink_market"])
                untranslated error_code
                (filled "id-123" "s3cret" "GB") ∅)))) G).
  - exact (proj1 (proj2 (proj2 (proj2
             (loading_ends_unless_rejected _
                (answered (store_set ["tink_market"]))
                untranslated error_code
                (filled "id-123" "s3cret" "GB") ∅)))) G).
Defined.

Lemma banner_text_by_first_failure_witness :
  shown_error
    (state (ended (onSubmit (flaky ["tink_clientId"]) untranslated error_code
                     (with_banner "unauthorized"
                        (filled "id-123" "s3cret" "GB")) ∅)))
  = Some "unauthorized".
Proof.
  pose proof (proj2 (banner_text_by_first_failure _ (flaky ["tink_clientId"])
                       untranslated error_code
                       (with_banner "unauthorized"
                          (filled "id-123" "s3cret" "GB")) ∅)) as H.
  assert (G : clientId (with_banner "unauthorized"
                          (filled "id-123" "s3cret" "GB")) <> "" /\
              clientSecret (with_banner "unauthorized"
                              (filled "id-123" "s3cret" "GB")) <> "" /\
              market (with_banner "unauthorized"
                        (filled "id-123" "s3cret" "GB")) <> "")
    by (repeat split; discriminate).
  specialize (H G Rejected ∅
                (Resolved (Some {| error := None; reason := None |}))
                (<["tink_clientSecret" := "s3cret"]> ∅)
                (Resolved (Some {| error := None; reason := None |}))
                (<["tink_market" := "GB"]>
                   (<["tink_clientSecret" := "s3cret"]> ∅))).
  specialize (H eq_refl). specialize (H eq_refl). specialize (H eq_refl).
  exact H.
Defined.

End AsyncModalExtras.
